(** * iFogSim results visualizer ([visualizer/plot_results.py])

    A shallow embedding of the plotting script and the proofs of its
    specification.  The script is a one-shot batch job: it looks for
    [results.csv], loads it with pandas, classifies the metric columns (or,
    failing that, the metric rows) by keyword and saves one bar chart per
    metric.

    What the embedding keeps from the libraries the script calls:
    - a Python [str] is a [string] of ASCII characters ([str.lower] acts on
      the letters A-Z only; code points beyond ASCII are outside the model);
    - a Python [float] is an IEEE binary64 number, Rocq's primitive [float];
    - a chart is the record of everything the script hands to matplotlib
      before [savefig];
    - the file system, [pandas.read_csv] and what matplotlib refuses to draw
      or to write are inputs of the run ([Env], [Pyplot]). *)

From Stdlib Require Import ZArith List String Ascii Bool Lia Floats.
From Stdlib Require Import Numbers.DecimalString.
Import ListNotations.

Local Open Scope string_scope.
Local Open Scope list_scope.

(** ** Python strings *)

Module PyStr.

(** [c.lower()] for one ASCII character. *)
Definition lower_ascii (c : ascii) : ascii :=
  let n := nat_of_ascii c in
  if (65 <=? n)%nat && (n <=? 90)%nat then ascii_of_nat (n + 32) else c.

(** [s.lower()] *)
Fixpoint lower (s : string) : string :=
  match s with
  | EmptyString => EmptyString
  | String c s' => String (lower_ascii c) (lower s')
  end.

(** [s.startswith(p)] *)
Fixpoint startswith (p s : string) : bool :=
  match p, s with
  | EmptyString, _ => true
  | String _ _, EmptyString => false
  | String a p', String b s' => Ascii.eqb a b && startswith p' s'
  end.

(** [k in s] on strings: [k] occurs in [s] as a contiguous substring. *)
Fixpoint contains (k s : string) : bool :=
  startswith k s ||
  match s with
  | EmptyString => false
  | String _ s' => contains k s'
  end.

(** [s.replace(a, b)] for one-character [a] and [b]. *)
Fixpoint replace_char (a b : ascii) (s : string) : string :=
  match s with
  | EmptyString => EmptyString
  | String c s' => String (if Ascii.eqb c a then b else c) (replace_char a b s')
  end.

(** [s * n] *)
Fixpoint times (s : string) (n : nat) : string :=
  match n with
  | O => EmptyString
  | S n' => s ++ times s n'
  end.

(** [str(z)] for an integer. *)
Definition of_Z (z : Z) : string := NilEmpty.string_of_int (Z.to_int z).

(** The newline character, written [\n] in the script. *)
Definition nl : string := String (ascii_of_nat 10) EmptyString.

(** Truth value of a string: the empty string is false. *)
Definition truthy (s : string) : bool :=
  match s with EmptyString => false | String _ _ => true end.

End PyStr.

(** ** Python floats

    The builtins the script applies to numbers: [float(x)], the format
    [.2f] and [str(x)].  Decimal text is read and written with correct
    rounding, as CPython does. *)

Module PyFloat.
Local Open Scope Z_scope.

Definition nan : float := PrimFloat.nan.

(** [float(z)] for an integer: the nearest binary64, ties to even. *)
Definition of_Z (z : Z) : float := SF2Prim (binary_normalize prec emax z 0 false).

(** The binary64 nearest to [n * 10^e10], for [n >= 0]. *)
Definition of_decimal (n e10 : Z) : float :=
  if n <=? 0 then PrimFloat.zero
  else if 400 <? e10 then PrimFloat.infinity
  else if e10 + Z.of_nat (String.length (PyStr.of_Z n)) <? -400 then PrimFloat.zero
  else if 0 <=? e10 then SF2Prim (binary_normalize prec emax (n * 10 ^ e10) 0 false)
  else SF2Prim (SFdiv prec emax (S754_finite false (Z.to_pos n) 0)
                                (S754_finite false (Z.to_pos (10 ^ (- e10))) 0)).

(** The characters [float] strips from both ends of its argument. *)
Definition is_space (c : ascii) : bool :=
  let n := nat_of_ascii c in
  ((9 <=? n) && (n <=? 13) || (n =? 32))%nat.

Fixpoint lstrip (s : string) : string :=
  match s with
  | String c s' => if is_space c then lstrip s' else s
  | EmptyString => s
  end.

Fixpoint rstrip (s : string) : string :=
  match s with
  | EmptyString => EmptyString
  | String c s' =>
      match rstrip s' with
      | EmptyString => if is_space c then EmptyString else String c EmptyString
      | r => String c r
      end
  end.

Definition digit_of (c : ascii) : option Z :=
  let n := nat_of_ascii c in
  if ((48 <=? n) && (n <=? 57))%nat then Some (Z.of_nat n - 48) else None.

(** [(["_"] digit)*]: the digits read and the rest of the text. *)
Fixpoint digits_tail (s : string) : list Z * string :=
  match s with
  | EmptyString => ([], s)
  | String c s' =>
      match digit_of c with
      | Some d => let (ds, r) := digits_tail s' in (d :: ds, r)
      | None =>
          if Ascii.eqb c "_" then
            match s' with
            | String c2 s'' =>
                match digit_of c2 with
                | Some d => let (ds, r) := digits_tail s'' in (d :: ds, r)
                | None => ([], s)
                end
            | EmptyString => ([], s)
            end
          else ([], s)
      end
  end.

(** [digitpart ::= digit (["_"] digit)*] *)
Definition digitpart (s : string) : option (list Z * string) :=
  match s with
  | String c s' =>
      match digit_of c with
      | Some d => let (ds, r) := digits_tail s' in Some (d :: ds, r)
      | None => None
      end
  | EmptyString => None
  end.

Definition value_of (ds : list Z) : Z := fold_left (fun acc d => 10 * acc + d) ds 0.

(** [sign ::= "+" | "-"], optional: whether it was "-", and the rest. *)
Definition sign (s : string) : bool * string :=
  match s with
  | String c s' =>
      if Ascii.eqb c "-" then (true, s')
      else if Ascii.eqb c "+" then (false, s')
      else (false, s)
  | EmptyString => (false, s)
  end.

(** [number ::= [digitpart] "." digitpart | digitpart ["."]]: the digits
    before and after the point, and the rest. *)
Definition number (s : string) : option (list Z * list Z * string) :=
  match digitpart s with
  | Some (ip, r) =>
      match r with
      | String c r' =>
          if Ascii.eqb c "." then
            match digitpart r' with
            | Some (fp, r'') => Some (ip, fp, r'')
            | None => Some (ip, [], r')
            end
          else Some (ip, [], r)
      | EmptyString => Some (ip, [], r)
      end
  | None =>
      match s with
      | String c r' =>
          if Ascii.eqb c "." then
            match digitpart r' with
            | Some (fp, r'') => Some ([], fp, r'')
            | None => None
            end
          else None
      | EmptyString => None
      end
  end.

(** [[exponent]] up to the end of the text: the exponent's value. *)
Definition exponent (s : string) : option Z :=
  match s with
  | EmptyString => Some 0
  | String c s' =>
      if Ascii.eqb c "e" || Ascii.eqb c "E" then
        let (neg, r) := sign s' in
        match digitpart r with
        | Some (ds, EmptyString) => Some (if neg then - value_of ds else value_of ds)
        | _ => None
        end
      else None
  end.

(** [float(s)] for a string: [None] when Python raises [ValueError]. *)
Definition of_string (s : string) : option float :=
  let (neg, body) := sign (rstrip (lstrip s)) in
  let signed (f : float) := if neg then PrimFloat.opp f else f in
  let word := PyStr.lower body in
  if String.eqb word "inf" || String.eqb word "infinity" then Some (signed PrimFloat.infinity)
  else if String.eqb word "nan" then Some nan
  else
    match number body with
    | Some (ip, fp, r) =>
        match exponent r with
        | Some e =>
            Some (signed (of_decimal (value_of (ip ++ fp)) (e - Z.of_nat (List.length fp))))
        | None => None
        end
    | None => None
    end.

(** The exact value of a finite non-zero float as a fraction [(num, den)]
    of positive integers, with its sign apart. *)
Definition fraction (m : positive) (e : Z) : Z * Z :=
  if 0 <=? e then (Z.pos m * 2 ^ e, 1) else (Z.pos m, 2 ^ (- e)).

(** [num / den] rounded to the nearest integer, ties to even. *)
Definition round_half_even (num den : Z) : Z :=
  let q := num / den in
  let r := num mod den in
  if den <? 2 * r then q + 1
  else if (den =? 2 * r) && Z.odd q then q + 1
  else q.

Definition pad2 (z : Z) : string :=
  if z <? 10 then "0" ++ PyStr.of_Z z else PyStr.of_Z z.

(** [f'{x:.2f}'] *)
Definition format_2f (x : float) : string :=
  match Prim2SF x with
  | S754_nan => "nan"
  | S754_infinity s => if s then "-inf" else "inf"
  | S754_zero s => if s then "-0.00" else "0.00"
  | S754_finite s m e =>
      let (num, den) := fraction m e in
      let h := round_half_even (100 * num) den in
      (if s then "-" else EmptyString) ++ PyStr.of_Z (h / 100) ++ "." ++ pad2 (h mod 100)
  end.

(** The position of the decimal point: the [P] with
    [10^(P-1) <= num/den < 10^P]. *)
Definition decpt (num den : Z) : Z :=
  if den <=? num then Z.of_nat (String.length (PyStr.of_Z (num / den)))
  else 1 - Z.of_nat (String.length (PyStr.of_Z ((den - 1) / num))).

(** The [n]-digit decimals next to [num/den], the nearer one first, each as
    [(d, k)] standing for [d * 10^k]. *)
Definition neighbours (num den P n : Z) : list (Z * Z) :=
  let s := n - P in
  let num' := if 0 <=? s then num * 10 ^ s else num in
  let den' := if 0 <=? s then den else den * 10 ^ (- s) in
  let q := num' / den' in
  let near := round_half_even num' den' in
  let far := if near =? q then q + 1 else q in
  [(near, - s); (far, - s)].

(** The shortest decimal that reads back as [x] (the nearest to [x] among
    the shortest), trying [n], [n+1], ... digits. *)
Fixpoint shortest (fuel : nat) (x : float) (num den P n : Z) : Z * Z :=
  match fuel with
  | O => (round_half_even (num * 10 ^ 400) den, -400)
  | S fuel' =>
      match filter (fun dk => PrimFloat.eqb (of_decimal (fst dk) (snd dk)) x)
                   (neighbours num den P n) with
      | dk :: _ => dk
      | [] => shortest fuel' x num den P (n + 1)
      end
  end.

Fixpoint strip_zeros (fuel : nat) (d k : Z) : Z * Z :=
  match fuel with
  | O => (d, k)
  | S fuel' => if (d mod 10 =? 0) && (0 <? d) then strip_zeros fuel' (d / 10) (k + 1) else (d, k)
  end.

Definition pad_exp (z : Z) : string :=
  (if z <? 0 then "-" else "+") ++ pad2 (Z.abs z).

(** The digits [ds] with the decimal point after [p] of them, as [repr]
    lays them out. *)
Definition layout (ds : string) (p : Z) : string :=
  let n := Z.of_nat (String.length ds) in
  if (p <=? -4) || (16 <? p) then
    String.substring 0 1 ds
      ++ (if 1 <? n then "." ++ String.substring 1 (String.length ds - 1) ds else EmptyString)
      ++ "e" ++ pad_exp (p - 1)
  else if p <=? 0 then "0." ++ PyStr.times "0" (Z.to_nat (- p)) ++ ds
  else if n <=? p then ds ++ PyStr.times "0" (Z.to_nat (p - n)) ++ ".0"
  else String.substring 0 (Z.to_nat p) ds ++ "."
         ++ String.substring (Z.to_nat p) (String.length ds - Z.to_nat p) ds.

(** [repr(x)], which is also [str(x)]. *)
Definition repr (x : float) : string :=
  match Prim2SF x with
  | S754_nan => "nan"
  | S754_infinity s => if s then "-inf" else "inf"
  | S754_zero s => if s then "-0.0" else "0.0"
  | S754_finite s m e =>
      let (num, den) := fraction m e in
      let P := decpt num den in
      let (d0, k0) := shortest 17 (PrimFloat.abs x) num den P 1 in
      let (d, k) := strip_zeros 400 d0 k0 in
      let ds := PyStr.of_Z d in
      (if s then "-" else EmptyString) ++ layout ds (k + Z.of_nat (String.length ds))
  end.

End PyFloat.

(** ** The loaded table

    What [pandas.read_csv] hands to the script.  A column of whole numbers is
    stored as int64 and its values come out as [numpy.int64]; a column with a
    decimal point or a missing value is float64 ([numpy.float64], the NaN
    standing for a missing value); [True]/[False] columns are [numpy.bool_];
    any other column holds Python strings (and NaN where a value is missing).
    A whole number that does not fit 64 bits comes as a Python [int].

    [iterrows] may hand a whole number over as a float when every column is
    numeric.  [float] gives the same on both, and the text of a number
    contains no keyword either way, so a cell is kept as it is stored. *)

Inductive cell : Type :=
| CInt (z : Z)
| CFloat (x : float)
| CBool (b : bool)
| CStr (s : string).

(** The header, and the records below it in file order.  A record shorter
    than the header reads as NaN in the missing places. *)
Record DataFrame : Type := {
  columns : list string;
  rows : list (list cell)
}.

(** The whole number fits a 64-bit integer, signed or unsigned: it is a
    [numpy.int64] or a [numpy.uint64]; beyond, it is a Python [int]. *)
Definition fits_64 (z : Z) : bool := ((- 2 ^ 63 <=? z) && (z <? 2 ^ 64))%Z.

(** [str(c)] *)
Definition py_str (c : cell) : string :=
  match c with
  | CInt z => PyStr.of_Z z
  | CFloat x => PyFloat.repr x
  | CBool b => if b then "True" else "False"
  | CStr s => s
  end.

(** [float(c)]: [None] when Python raises: [ValueError] on a text that is
    no number, [OverflowError] on a whole number whose nearest binary64 is
    beyond the largest one. *)
Definition py_float (c : cell) : option float :=
  match c with
  | CInt z =>
      let x := PyFloat.of_Z z in
      if PrimFloat.is_infinity x then None else Some x
  | CFloat x => Some x
  | CBool b => Some (PyFloat.of_Z (if b then 1 else 0))
  | CStr s => PyFloat.of_string s
  end.

(** [isinstance(c, (int, float))]: [numpy.float64] derives from [float];
    the numpy integers and [numpy.bool_] derive from neither [int] nor
    [float]; a whole number beyond 64 bits is a Python [int]. *)
Definition isinstance_int_float (c : cell) : bool :=
  match c with
  | CFloat _ => true
  | CInt z => negb (fits_64 z)
  | CBool _ | CStr _ => false
  end.

(** The position of a label in an index. *)
Fixpoint index_of (col : string) (cols : list string) : option nat :=
  match cols with
  | [] => None
  | c :: rest =>
      if String.eqb c col then Some O
      else match index_of col rest with Some i => Some (S i) | None => None end
  end.

Definition cell_at (row : list cell) (i : nat) : cell := nth i row (CFloat PyFloat.nan).

(** [row[col]] for a record of the table: [None] is [KeyError]. *)
Definition row_get (cols : list string) (row : list cell) (col : string) : option cell :=
  match index_of col cols with
  | Some i => Some (cell_at row i)
  | None => None
  end.

(** [data[col].values]: [None] is [KeyError]. *)
Definition column_values (data : DataFrame) (col : string) : option (list cell) :=
  match index_of col (columns data) with
  | Some i => Some (map (fun row => cell_at row i) (rows data))
  | None => None
  end.

(** ** What a run does

    A run is the sequence of its visible actions, in order, and the way it
    ends. *)

(** One figure, as it stands when [savefig] is called. *)
Record Chart : Type := {
  title : string;
  xlabel : string;
  ylabel : string;
  color : string;
  heights : list cell;        (* plt.bar(range(len(values)), values, ...) *)
  texts : list string;        (* the plt.text above each bar *)
  ticks : list cell;          (* plt.xticks(range(len(labels)), labels, ...) *)
  output_file : string        (* plt.savefig(output_file, ...) *)
}.

Inductive Event : Type :=
| Print (s : string)                               (* print(s) *)
| PrintColumns (s : string) (cols : list string)   (* print(f"{s}{list(data.columns)}") *)
| PrintHead (data : DataFrame)                     (* print(data.head()) *)
| SaveFig (c : Chart)                              (* plt.savefig *)
| ShowFig.                                         (* plt.show() *)

Inductive Result (A : Type) : Type :=
| Done (a : A)
| Exit (code : Z)            (* exit(code) *)
| Raised (exn : string).     (* an exception no handler catches *)

Arguments Done {A} a.
Arguments Exit {A} code.
Arguments Raised {A} exn.

Definition Run (A : Type) : Type := list Event * Result A.

Definition ret {A} (a : A) : Run A := ([], Done a).

Definition bind {A B} (m : Run A) (k : A -> Run B) : Run B :=
  match m with
  | (t, Done a) => let (t', r) := k a in (t ++ t', r)
  | (t, Exit code) => (t, Exit code)
  | (t, Raised exn) => (t, Raised exn)
  end.

Definition emit (e : Event) : Run unit := ([e], Done tt).
Definition print (s : string) : Run unit := emit (Print s).
Definition exit {A} (code : Z) : Run A := ([], Exit code).
Definition raise {A} (exn : string) : Run A := ([], Raised exn).

Declare Scope run_scope.
Delimit Scope run_scope with run.
Notation "x <- m ;; k" := (bind m (fun x => k))
  (at level 61, m at next level, right associativity) : run_scope.
Notation "m ;; k" := (bind m (fun _ => k))
  (at level 61, right associativity) : run_scope.
Local Open Scope run_scope.

(** A sequence of [print] calls, one for each line. *)
Fixpoint print_all (lines : list string) : Run unit :=
  match lines with
  | [] => ret tt
  | l :: rest => print l ;; print_all rest
  end.

(** The charts a run saved, in order. *)
Fixpoint saved (t : list Event) : list Chart :=
  match t with
  | [] => []
  | SaveFig c :: t' => c :: saved t'
  | _ :: t' => saved t'
  end.

(** The lines a run printed with a literal text, in order. *)
Fixpoint printed (t : list Event) : list string :=
  match t with
  | [] => []
  | Print s :: t' => s :: printed t'
  | _ :: t' => printed t'
  end.

(** The status the process ends with. *)
Definition exit_status {A} (r : Result A) : Z :=
  match r with
  | Done _ => 0
  | Exit code => code
  | Raised _ => 1
  end.

(** ** The plotting library

    The calls into matplotlib that can refuse what the table gives them:
    [plt.bar] the values of the bars, [plt.savefig] the figure and its path.
    What they refuse is not written in the script: it is an input of the
    run. *)
Record Pyplot : Type := {
  (* plt.bar(range(len(values)), values, ...): the exception it raises, if any *)
  plt_bar : list cell -> option string;
  (* plt.savefig(output_file, ...): the exception it raises, if any *)
  plt_savefig : string -> option string
}.

(** A library call that either raises or returns. *)
Definition call (raised : option string) : Run unit :=
  match raised with
  | Some exn => raise exn
  | None => ret tt
  end.

(** ** Column classifier *)

(** The inner loop of [find_column] for one column: whether
    [keyword.lower() in col_lower] holds for some keyword. *)
Definition column_matches (keywords : list string) (col : string) : bool :=
  let col_lower := PyStr.lower col in
  existsb (fun keyword => PyStr.contains (PyStr.lower keyword) col_lower) keywords.

(** [find_column(df, keywords)], on [df.columns]. *)
Fixpoint find_column (columns : list string) (keywords : list string) : option string :=
  match columns with
  | [] => None
  | col :: rest =>
      if column_matches keywords col then Some col else find_column rest keywords
  end.

(** ** Chart renderer, column-based path *)

(** [os.path.join(a, b)] on POSIX paths. *)
Definition path_join (a b : string) : string :=
  if PyStr.startswith "/" b then b
  else match a with
       | EmptyString => b
       | _ => if PyStr.startswith "/" (String.substring (String.length a - 1) 1 a)
              then a ++ b else a ++ "/" ++ b
       end.

(** [[f"Config {i+1}" for i in range(n)]] *)
Definition config_labels (n : nat) : list cell :=
  map (fun i => CStr ("Config " ++ PyStr.of_Z (Z.of_nat i + 1))) (seq 0 n).

(** [f'{val:.2f}' if isinstance(val, (int, float)) else str(val)]: the
    format [.2f] turns a Python [int] into a float first, and [None] is the
    [OverflowError] of that. *)
Definition bar_text (val : cell) : option string :=
  if isinstance_int_float val then
    match py_float val with
    | Some x => Some (PyFloat.format_2f x)
    | None => None
    end
  else Some (py_str val).

(** The texts of the loop over [zip(bars, values)]: [None] when one of them
    raises. *)
Fixpoint bar_texts (values : list cell) : option (list string) :=
  match values with
  | [] => Some []
  | val :: rest =>
      match bar_text val with
      | None => None
      | Some text =>
          match bar_texts rest with
          | None => None
          | Some texts => Some (text :: texts)
          end
      end
  end.

(** [f'{metric_name.replace(" ", "_").lower()}_graph.png'] *)
Definition graph_file_name (metric_name : string) : string :=
  PyStr.lower (PyStr.replace_char " " "_" metric_name) ++ "_graph.png".

(** The figure [create_bar_graph] draws for the values of a metric column
    and the labels chosen for them. *)
Definition bar_chart (root metric_name ylabel title color : string)
    (values : list cell) (bar_labels : list string) (labels : list cell) : Chart :=
  {| title := title;
     xlabel := "Configuration";
     ylabel := ylabel;
     color := color;
     heights := values;
     texts := bar_labels;
     ticks := labels;
     output_file := path_join root (graph_file_name metric_name) |}.

(** [create_bar_graph(data, metric_name, keywords, ylabel, title, color)],
    with the plotting library and the project root the output path is built
    from. *)
Definition create_bar_graph (plt : Pyplot) (project_root : string) (data : DataFrame)
    (metric_name : string) (keywords : list string)
    (ylabel title color : string) : Run unit :=
  match find_column (columns data) keywords with
  | None =>
      print ("Warning: Could not find column for " ++ metric_name) ;;
      emit (PrintColumns "Available columns: " (columns data))
  | Some metric_col =>
      match column_values data metric_col with
      | None => raise "KeyError"
      | Some values =>
          labels <-
            (if (1 <? List.length (columns data))%nat then
               match columns data with
               | [] => raise "IndexError"
               | first_col :: _ =>
                   if negb (String.eqb first_col metric_col) then
                     match column_values data first_col with
                     | Some l => ret l
                     | None => raise "KeyError"
                     end
                   else ret (config_labels (List.length values))
               end
             else ret (config_labels (List.length values))) ;;
          call (plt_bar plt values) ;;
          match bar_texts values with
          | None => raise "OverflowError"
          | Some bar_labels =>
              let chart := bar_chart project_root metric_name ylabel title color
                             values bar_labels labels in
              call (plt_savefig plt (output_file chart)) ;;
              emit (SaveFig chart) ;;
              print ("Saved: " ++ output_file chart) ;;
              emit ShowFig
          end
      end
  end.

(** ** Row-structure fallback *)

(** A Python [dict] with string keys: the items in insertion order. *)
Definition dict (V : Type) : Type := list (string * V).

(** [d.get(k)] *)
Fixpoint dict_get {V} (k : string) (d : dict V) : option V :=
  match d with
  | [] => None
  | (k', v) :: d' => if String.eqb k' k then Some v else dict_get k d'
  end.

(** [d[k] = v]: a key already there keeps its place. *)
Fixpoint dict_set {V} (k : string) (v : V) (d : dict V) : dict V :=
  match d with
  | [] => [(k, v)]
  | (k', v') :: d' => if String.eqb k' k then (k', v) :: d' else (k', v') :: dict_set k v d'
  end.

Definition metric_keywords : dict (list string) :=
  [ ("Execution Time", ["execution"; "time"; "exec"]);
    ("Delay", ["delay"]);
    ("Energy", ["energy"; "power"]);
    ("Network Usage", ["network"; "usage"; "bandwidth"]) ].

Definition color_map : dict string :=
  [ ("Execution Time", "steelblue");
    ("Delay", "green");
    ("Energy", "purple");
    ("Network Usage", "orange") ].

Definition ylabel_map : dict string :=
  [ ("Execution Time", "Execution Time (ms)");
    ("Delay", "Delay (ms)");
    ("Energy", "Energy Consumption (J)");
    ("Network Usage", "Network Usage (Bytes)") ].

(** The loop over [data.columns[1:]] for one record: the value of every cell
    that [float] accepts; the bare [except] passes over the others. *)
Definition row_values (cols : list string) (row : list cell) : list float :=
  flat_map (fun col =>
              match row_get cols row col with
              | Some c => match py_float c with Some val => [val] | None => [] end
              | None => []
              end)
           (tl cols).

(** [any(keyword in metric_lower for keyword in keywords)] *)
Definition row_matches (keywords : list string) (metric_lower : string) : bool :=
  existsb (fun keyword => PyStr.contains keyword metric_lower) keywords.

(** The body of the loop over [metric_keywords.items()], for one record
    whose first cell reads [metric_lower]. *)
Definition match_metric (cols : list string) (row : list cell) (metric_lower : string)
    (metric_rows : dict (list float)) (item : string * list string) : dict (list float) :=
  let (metric, keywords) := item in
  if row_matches keywords metric_lower then
    match row_values cols row with
    | [] => metric_rows
    | values => dict_set metric values metric_rows
    end
  else metric_rows.

(** The body of the loop over [data.iterrows()], for one record: [None] is
    the [KeyError] of [row[first_col]]. *)
Definition scan_row (cols : list string) (first_col : string)
    (metric_rows : dict (list float)) (row : list cell) : option (dict (list float)) :=
  match row_get cols row first_col with
  | None => None
  | Some c =>
      let metric_name := py_str c in
      let metric_lower := PyStr.lower metric_name in
      Some (fold_left (match_metric cols row metric_lower) metric_keywords metric_rows)
  end.

(** The loop over [data.iterrows()]. *)
Fixpoint scan_rows (cols : list string) (first_col : string)
    (metric_rows : dict (list float)) (rs : list (list cell)) : option (dict (list float)) :=
  match rs with
  | [] => Some metric_rows
  | row :: rest =>
      match scan_row cols first_col metric_rows row with
      | Some metric_rows' => scan_rows cols first_col metric_rows' rest
      | None => None
      end
  end.

(** The figure drawn for one item of [metric_rows]. *)
Definition row_chart (project_root : string) (metric : string) (values : list float) : Chart :=
  {| title := metric ++ " Comparison";
     xlabel := "Configuration";
     ylabel := match dict_get metric ylabel_map with Some y => y | None => metric end;
     color := match dict_get metric color_map with Some c => c | None => "steelblue" end;
     heights := map CFloat values;
     texts := map PyFloat.format_2f values;
     ticks := config_labels (List.length values);
     output_file := path_join project_root (graph_file_name metric) |}.

(** The loop over [metric_rows.items()]. *)
Fixpoint draw_rows (plt : Pyplot) (project_root : string) (items : dict (list float))
    : Run unit :=
  match items with
  | [] => ret tt
  | (metric, values) :: rest =>
      let c := row_chart project_root metric values in
      call (plt_bar plt (heights c)) ;;
      call (plt_savefig plt (output_file c)) ;;
      emit (SaveFig c) ;;
      print ("Saved: " ++ output_file c) ;;
      emit ShowFig ;;
      draw_rows plt project_root rest
  end.

(** [create_graphs_from_row_structure(data)] *)
Definition create_graphs_from_row_structure (plt : Pyplot) (project_root : string)
    (data : DataFrame) : Run bool :=
  match columns data with
  | [] => raise "IndexError"
  | first_col :: _ =>
      match scan_rows (columns data) first_col [] (rows data) with
      | None => raise "KeyError"
      | Some [] => ret false
      | Some metric_rows => draw_rows plt project_root metric_rows ;; ret true
      end
  end.

(** ** The script *)

(** The surroundings of a run: where the script lives, which files exist,
    what [pd.read_csv] makes of a file, and the plotting library. *)
Inductive Load : Type :=
| Loaded (data : DataFrame)
| LoadError (e : string).

Record Env : Type := {
  project_root : string;
  path_exists : string -> bool;
  read_csv : string -> Load;
  pyplot : Pyplot
}.

Definition possible_locations (project_root : string) : list string :=
  [ path_join project_root "results.csv";
    path_join (path_join project_root "output") "results.csv";
    path_join (path_join project_root "results") "results.csv" ].

(** The search loop: the first location that exists. *)
Fixpoint csv_file (path_exists : string -> bool) (locations : list string) : option string :=
  match locations with
  | [] => None
  | location :: rest =>
      if path_exists location then Some location else csv_file path_exists rest
  end.

(** Truth value of what [find_column] returned. *)
Definition found (col : option string) : bool :=
  match col with
  | Some c => PyStr.truthy c
  | None => false
  end.

Definition when (b : bool) (m : Run unit) : Run unit := if b then m else ret tt.

Definition format_guidance : list string :=
  [ (PyStr.nl ++ "Could not automatically detect metric columns.")%string;
    "Please check your CSV structure.";
    (PyStr.nl ++ "Expected format:")%string;
    "Option 1 - Column-based:";
    "  Configuration, Execution Time, Delay, Energy, Network Usage";
    "  Config1, 100, 50, 200, 1000";
    (PyStr.nl ++ "Option 2 - Row-based:")%string;
    "  Metric, Config1, Config2, Config3";
    "  Execution Time, 100, 120, 110";
    "  Delay, 50, 55, 52" ].

(** The part under [# Main execution]. *)
Definition main (plt : Pyplot) (project_root : string) (data : DataFrame) : Run unit :=
  print (PyStr.nl ++ PyStr.times "=" 50) ;;
  print "Creating Visualization Graphs" ;;
  print (PyStr.times "=" 50 ++ PyStr.nl) ;;
  let execution_col := find_column (columns data) ["execution"; "time"; "exec"] in
  let delay_col := find_column (columns data) ["delay"] in
  let energy_col := find_column (columns data) ["energy"; "power"] in
  let network_col := find_column (columns data) ["network"; "usage"; "bandwidth"] in
  (if found execution_col || found delay_col || found energy_col || found network_col then
     print ("Detected column-based CSV structure" ++ PyStr.nl) ;;
     when (found execution_col)
       (create_bar_graph plt project_root data "Execution Time" ["execution"; "time"]
          "Execution Time (ms)" "Execution Time Comparison" "steelblue") ;;
     when (found delay_col)
       (create_bar_graph plt project_root data "Delay" ["delay"]
          "Delay (ms)" "Delay Comparison" "green") ;;
     when (found energy_col)
       (create_bar_graph plt project_root data "Energy" ["energy"; "power"]
          "Energy Consumption (J)" "Energy Consumption Comparison" "purple") ;;
     when (found network_col)
       (create_bar_graph plt project_root data "Network Usage" ["network"; "usage"]
          "Network Usage (Bytes)" "Network Usage Comparison" "orange")
   else
     print ("Trying row-based CSV structure" ++ PyStr.nl) ;;
     ok <- create_graphs_from_row_structure plt project_root data ;;
     when (negb ok) (print_all format_guidance)) ;;
  print (PyStr.nl ++ PyStr.times "=" 50) ;;
  print "Visualization Complete!" ;;
  print (PyStr.times "=" 50).

(** The lines printed when no location holds the file. *)
Definition missing_file_report (locations : list string) : list string :=
  [ PyStr.times "=" 60;
    "ERROR: results.csv not found!";
    PyStr.times "=" 60;
    (PyStr.nl ++ "Searched in the following locations:")%string ]
  ++ map (fun loc => ("  - " ++ loc)%string) locations
  ++ [ (PyStr.nl ++ "Please ensure results.csv exists in one of these locations.")%string;
       "The Java simulation should generate this file after running.";
       PyStr.times "=" 60 ].

(** What the script does with the file it settled on. *)
Definition load_and_plot (env : Env) (file : string) : Run unit :=
  print ("Reading data from: " ++ file) ;;
  match read_csv env file with
  | LoadError e =>
      print ("Error reading CSV file: " ++ e) ;;
      exit 1
  | Loaded data =>
      print "CSV file loaded successfully!" ;;
      emit (PrintColumns "Columns found: " (columns data)) ;;
      print (PyStr.nl ++ "First few rows:") ;;
      emit (PrintHead data) ;;
      main (pyplot env) (project_root env) data
  end.

(** The whole script, from the search for [results.csv] on. *)
Definition script (env : Env) : Run unit :=
  match csv_file (path_exists env) (possible_locations (project_root env)) with
  | None =>
      print_all (missing_file_report (possible_locations (project_root env))) ;;
      exit 1
  | Some file => load_and_plot env file
  end.

(** ** Vocabulary of the specification *)

(** [k] occurs in [s] as a contiguous substring. *)
Definition substring_of (k s : string) : Prop :=
  exists before after : string, s = (before ++ k ++ after)%string.

(** The name [col], lower-cased, contains some keyword, lower-cased. *)
Definition name_has_keyword (keywords : list string) (col : string) : Prop :=
  exists k, In k keywords /\ substring_of (PyStr.lower k) (PyStr.lower col).

(** The cells of a list that [float] accepts, converted, in order. *)
Definition numeric (cells : list cell) : list float :=
  flat_map (fun c => match py_float c with Some val => [val] | None => [] end) cells.

(** The text of a record's first cell, lower-cased: what the fallback matches
    the keywords against. *)
Definition metric_text (row : list cell) : string :=
  PyStr.lower (py_str (cell_at row 0)).

(** What one record does to [metric_rows]. *)
Definition scan_step (cols : list string) (metric_rows : dict (list float))
    (row : list cell) : dict (list float) :=
  fold_left (match_metric cols row (metric_text row)) metric_keywords metric_rows.

(** The record names the metric with these keywords. *)
Definition names_metric (keywords : list string) (row : list cell) : bool :=
  row_matches keywords (metric_text row).

(** The record has a number after the first column. *)
Definition has_values (cols : list string) (row : list cell) : bool :=
  match row_values cols row with
  | [] => false
  | _ => true
  end.

(** No keyword of any of the four metrics occurs in a column name. *)
Definition no_metric_column (data : DataFrame) : Prop :=
  found (find_column (columns data) ["execution"; "time"; "exec"]) = false /\
  found (find_column (columns data) ["delay"]) = false /\
  found (find_column (columns data) ["energy"; "power"]) = false /\
  found (find_column (columns data) ["network"; "usage"; "bandwidth"]) = false.

(** The four metrics by display name, each with its axis label and colour. *)
Definition metric_styles : list (string * string * string) :=
  [ ("Execution Time", "Execution Time (ms)", "steelblue");
    ("Delay", "Delay (ms)", "green");
    ("Energy", "Energy Consumption (J)", "purple");
    ("Network Usage", "Network Usage (Bytes)", "orange") ].

(** The trace and the ending of a run. *)
Definition trace {A} (m : Run A) : list Event := fst m.
Definition ending {A} (m : Run A) : Result A := snd m.

(** The table without the records that carry no number after the first
    column. *)
Definition without_empty_series (data : DataFrame) : DataFrame :=
  {| columns := columns data;
     rows := filter (has_values (columns data)) (rows data) |}.

(** ** Sample tables *)

(** The column-based sample of the format guidance. *)
Definition sample_columns : DataFrame :=
  {| columns := ["Configuration"; "Execution Time"; "Delay"; "Energy"; "Network Usage"];
     rows := [[CStr "Config1"; CInt 100; CInt 50; CInt 200; CInt 1000]] |}.

(** The row-based sample of the format guidance. *)
Definition sample_rows : DataFrame :=
  {| columns := ["Metric"; "Config1"; "Config2"; "Config3"];
     rows := [[CStr "Execution Time"; CInt 100; CInt 120; CInt 110];
              [CStr "Delay"; CInt 50; CInt 55; CInt 52]] |}.

(** Columns named by the third keyword of their metric. *)
Definition sample_exec_bandwidth : DataFrame :=
  {| columns := ["Config"; "Exec"; "Bandwidth"];
     rows := [[CStr "A"; CFloat 5.5; CFloat 7.25]] |}.

(** A column named by the third keyword before one named by the second. *)
Definition sample_exec_time : DataFrame :=
  {| columns := ["Config"; "Exec"; "Timestamp"];
     rows := [[CStr "A"; CFloat 5.5; CInt 1700000000]] |}.

(** Two records for the same metric. *)
Definition sample_two_delays : DataFrame :=
  {| columns := ["Metric"; "Config1"; "Config2"];
     rows := [[CStr "Delay"; CInt 1; CInt 2];
              [CStr "Delay"; CInt 3; CInt 4]] |}.

(** A record with a cell that is not a number, and one with none that is. *)
Definition sample_gaps : DataFrame :=
  {| columns := ["Metric"; "Config1"; "Config2"; "Config3"];
     rows := [[CStr "Delay"; CStr "50"; CStr "failed"; CStr "52.5"];
              [CStr "Energy"; CStr "low"; CStr "high"; CStr "-"]] |}.

(** A table no keyword occurs in. *)
Definition sample_unknown : DataFrame :=
  {| columns := ["Name"; "Score"];
     rows := [[CStr "alpha"; CInt 1]; [CStr "beta"; CInt 2]] |}.

(** The metric column comes first. *)
Definition sample_metric_first : DataFrame :=
  {| columns := ["Delay"; "Energy"];
     rows := [[CInt 5; CInt 7]; [CInt 6; CInt 8]] |}.

(** The plotting library in the sample runs: [plt.bar] refuses heights that
    mix text with other values ([TypeError]) and whole numbers beyond 64 bits
    ([OverflowError]); it draws the numbers of the samples, and every file
    can be written. *)
Definition is_text (c : cell) : bool :=
  match c with
  | CStr _ => true
  | _ => false
  end.

Definition sample_bar (values : list cell) : option string :=
  if existsb is_text values && existsb (fun c => negb (is_text c)) values
  then Some "TypeError"
  else if existsb (fun c => match c with CInt z => negb (fits_64 z) | _ => false end) values
  then Some "OverflowError"
  else None.

Definition sample_pyplot : Pyplot :=
  {| plt_bar := sample_bar; plt_savefig := fun _ => None |}.

Definition sample_env (files : list string) (data : DataFrame) : Env :=
  {| project_root := "/sim";
     path_exists := fun p => existsb (String.eqb p) files;
     read_csv := fun _ => Loaded data;
     pyplot := sample_pyplot |}.

(** ** The metrics of the column-based path *)

(** Each metric with the keywords of the classification at the top of the
    main part and the keywords its [create_bar_graph] call passes. *)
Definition column_metrics : list (string * list string * list string) :=
  [ ("Execution Time", ["execution"; "time"; "exec"], ["execution"; "time"]);
    ("Delay", ["delay"], ["delay"]);
    ("Energy", ["energy"; "power"], ["energy"; "power"]);
    ("Network Usage", ["network"; "usage"; "bandwidth"], ["network"; "usage"]) ].

(** The metric is classified at the top and the renderer finds a column for
    it. *)
Definition column_charted (data : DataFrame) (m : string * list string * list string) : bool :=
  found (find_column (columns data) (snd (fst m))) &&
  match find_column (columns data) (snd m) with
  | Some _ => true
  | None => false
  end.

(** Some metric is classified at the top: the column-based path is taken. *)
Definition column_based (data : DataFrame) : bool :=
  found (find_column (columns data) ["execution"; "time"; "exec"])
  || found (find_column (columns data) ["delay"])
  || found (find_column (columns data) ["energy"; "power"])
  || found (find_column (columns data) ["network"; "usage"; "bandwidth"]).

(** The exception comes from a drawing step: [plt.bar] or [plt.savefig]
    raises it, or it is the [OverflowError] of a bar text. *)
Definition drawing_error (plt : Pyplot) (exn : string) : Prop :=
  (exists values, plt_bar plt values = Some exn) \/
  (exists path, plt_savefig plt path = Some exn) \/
  exn = "OverflowError".

(** The run returns, or stops at a drawing step; it does not call [exit]. *)
Definition ends_well {A} (plt : Pyplot) (m : Run A) : Prop :=
  match ending m with
  | Done _ => True
  | Exit _ => False
  | Raised exn => drawing_error plt exn
  end.

(** The line in the middle of the banner at the end is not among the lines
    printed. *)
Definition no_banner (t : list Event) : Prop :=
  Forall (fun line => line <> "Visualization Complete!") (printed t).

(** The two-way branch in the middle of the main part. *)
Definition main_branch (plt : Pyplot) (root : string) (data : DataFrame) : Run unit :=
  (if column_based data then
     print ("Detected column-based CSV structure" ++ PyStr.nl) ;;
     when (found (find_column (columns data) ["execution"; "time"; "exec"]))
       (create_bar_graph plt root data "Execution Time" ["execution"; "time"]
          "Execution Time (ms)" "Execution Time Comparison" "steelblue") ;;
     when (found (find_column (columns data) ["delay"]))
       (create_bar_graph plt root data "Delay" ["delay"]
          "Delay (ms)" "Delay Comparison" "green") ;;
     when (found (find_column (columns data) ["energy"; "power"]))
       (create_bar_graph plt root data "Energy" ["energy"; "power"]
          "Energy Consumption (J)" "Energy Consumption Comparison" "purple") ;;
     when (found (find_column (columns data) ["network"; "usage"; "bandwidth"]))
       (create_bar_graph plt root data "Network Usage" ["network"; "usage"]
          "Network Usage (Bytes)" "Network Usage Comparison" "orange")
   else
     print ("Trying row-based CSV structure" ++ PyStr.nl) ;;
     ok <- create_graphs_from_row_structure plt root data ;;
     when (negb ok) (print_all format_guidance))%run.

(** Runs one after the other: a run that does not return stops the rest. *)
Fixpoint sequence (ms : list (Run unit)) : Run unit :=
  match ms with
  | [] => ret tt
  | m :: rest =>
      match rest with
      | [] => m
      | _ :: _ => (m ;; sequence rest)%run
      end
  end.

(** The four guarded calls of the column-based path, each under the display
    name of its metric. *)
Definition column_calls (plt : Pyplot) (root : string) (data : DataFrame)
    : list (string * Run unit) :=
  [ ("Execution Time",
     when (found (find_column (columns data) ["execution"; "time"; "exec"]))
       (create_bar_graph plt root data "Execution Time" ["execution"; "time"]
          "Execution Time (ms)" "Execution Time Comparison" "steelblue"));
    ("Delay",
     when (found (find_column (columns data) ["delay"]))
       (create_bar_graph plt root data "Delay" ["delay"]
          "Delay (ms)" "Delay Comparison" "green"));
    ("Energy",
     when (found (find_column (columns data) ["energy"; "power"]))
       (create_bar_graph plt root data "Energy" ["energy"; "power"]
          "Energy Consumption (J)" "Energy Consumption Comparison" "purple"));
    ("Network Usage",
     when (found (find_column (columns data) ["network"; "usage"; "bandwidth"]))
       (create_bar_graph plt root data "Network Usage" ["network"; "usage"]
          "Network Usage (Bytes)" "Network Usage Comparison" "orange")) ].

(** The files of the charts a trace saves, in order. *)
Definition files (t : list Event) : list string := map output_file (saved t).

(** Every chart of the trace is announced by a [Saved:] line with its path. *)
Definition announced (t : list Event) : Prop :=
  Forall (fun c => In ("Saved: " ++ output_file c)%string (printed t)) (saved t).

(** A character of the text of a whole number: a digit or the minus sign. *)
Definition plain (c : ascii) : bool :=
  let n := nat_of_ascii c in
  ((48 <=? n) && (n <=? 57) || (n =? 45))%nat.

Fixpoint all_plain (s : string) : bool :=
  match s with
  | EmptyString => true
  | String c s' => plain c && all_plain s'
  end.

(** A character that is neither a space nor an upper-case letter. *)
Definition tidy (c : ascii) : bool :=
  let n := nat_of_ascii c in
  negb (n =? 32)%nat && negb ((65 <=? n) && (n <=? 90))%nat.

Fixpoint all_tidy (s : string) : bool :=
  match s with
  | EmptyString => true
  | String c s' => tidy c && all_tidy s'
  end.

(** ** Further sample tables *)

(** A header and no record. *)
Definition sample_no_rows : DataFrame :=
  {| columns := ["Config"; "Delay"]; rows := [] |}.

(** A record whose first cell has keywords of two metrics. *)
Definition sample_network_delay : DataFrame :=
  {| columns := ["Metric"; "Run1"; "Run2"];
     rows := [[CStr "Network Delay"; CInt 7; CInt 9]] |}.

(** A table whose first column holds whole numbers. *)
Definition sample_numbered : DataFrame :=
  {| columns := ["Id"; "Value"];
     rows := [[CInt 1; CInt 10]; [CInt 2; CInt 20]] |}.

(** A table of one column, named after a metric. *)
Definition sample_one_column : DataFrame :=
  {| columns := ["Metric"];
     rows := [[CStr "Delay"]; [CStr "Energy"]] |}.

(** A text column with a missing value under a metric's name. *)
Definition sample_text_gap : DataFrame :=
  {| columns := ["Config"; "Delay"];
     rows := [[CStr "A"; CStr "low"]; [CStr "B"; CFloat PyFloat.nan]] |}.

Definition failing_env (e : string) : Env :=
  {| project_root := "/sim";
     path_exists := fun p => String.eqb p "/sim/results/results.csv";
     read_csv := fun _ => LoadError e;
     pyplot := sample_pyplot |}.

(** ** Tables that are drawn without an exception *)

(** Some record names a metric in its first cell and has a number after
    it. *)
Definition populated (data : DataFrame) : Prop :=
  exists row metric keywords,
    In row (rows data) /\ In (metric, keywords) metric_keywords /\
    names_metric keywords row = true /\ has_values (columns data) row = true.

(** A cell that is not a whole number beyond 64 bits. *)
Definition ordinary (c : cell) : bool :=
  match c with
  | CInt z => fits_64 z
  | _ => true
  end.

(** No record holds a whole number beyond 64 bits. *)
Definition all_ordinary (data : DataFrame) : Prop :=
  Forall (fun row => forallb ordinary row = true) (rows data).

(** The plotting library draws every chart and writes every file. *)
Definition refuses_nothing (plt : Pyplot) : Prop :=
  (forall values, plt_bar plt values = None) /\
  (forall path, plt_savefig plt path = None).

(** A record with a whole number beyond the range of a float. *)
Definition sample_overflow_row : list cell :=
  [CStr "Network Delay"; CInt (10 ^ 400); CInt 5].

(** * Proofs *)

(** ** Strings *)

Lemma startswith_spec (p s : string) :
  PyStr.startswith p s = true <-> exists after, s = (p ++ after)%string.
Proof.
  revert s; induction p as [|a p IH]; intros s; simpl.
  - split; [intros _; now exists s | reflexivity].
  - destruct s as [|b s].
    + split; [discriminate | intros [after H]; discriminate].
    + rewrite andb_true_iff, Ascii.eqb_eq, IH. split.
      * intros [-> [after ->]]. now exists after.
      * intros [after H]. injection H as -> ->. split; [reflexivity | now exists after].
Qed.

Lemma contains_spec (k s : string) :
  PyStr.contains k s = true <-> substring_of k s.
Proof.
  unfold substring_of. induction s as [|c s IH].
  - simpl. rewrite orb_false_r, startswith_spec. split.
    + intros [after H]. now exists EmptyString, after.
    + intros [[|b before] [after H]]; [now exists after | discriminate].
  - cbn [PyStr.contains]. rewrite orb_true_iff, startswith_spec, IH. split.
    + intros [[after H] | [before [after H]]].
      * now exists EmptyString, after.
      * exists (String c before), after. now rewrite H.
    + intros [[|b before] [after H]].
      * left. now exists after.
      * right. injection H as _ H. now exists before, after.
Qed.

Lemma column_matches_spec (keywords : list string) (col : string) :
  column_matches keywords col = true <-> name_has_keyword keywords col.
Proof.
  unfold column_matches, name_has_keyword. rewrite existsb_exists.
  split; intros [k [Hin H]]; exists k; (split; [exact Hin|]); now apply contains_spec.
Qed.

Lemma column_matches_false (keywords : list string) (col : string) :
  column_matches keywords col = false <-> ~ name_has_keyword keywords col.
Proof.
  rewrite <- column_matches_spec. destruct (column_matches keywords col); split; congruence.
Qed.

(** ** Column classifier *)

Lemma find_column_some (cols keywords : list string) (col : string) :
  find_column cols keywords = Some col ->
  exists before after,
    cols = before ++ col :: after /\
    column_matches keywords col = true /\
    Forall (fun c => column_matches keywords c = false) before.
Proof.
  induction cols as [|c cols IH]; simpl; [discriminate|].
  destruct (column_matches keywords c) eqn:Hc.
  - intros [= <-]. exists [], cols. auto.
  - intros H. destruct (IH H) as (before & after & -> & Hm & Hb).
    exists (c :: before), after. auto.
Qed.

Lemma find_column_none (cols keywords : list string) :
  find_column cols keywords = None ->
  Forall (fun c => column_matches keywords c = false) cols.
Proof.
  induction cols as [|c cols IH]; simpl; [constructor|].
  destruct (column_matches keywords c) eqn:Hc; [discriminate|]. auto.
Qed.

Lemma find_column_in (cols keywords : list string) (col : string) :
  find_column cols keywords = Some col -> In col cols.
Proof.
  intros H. destruct (find_column_some _ _ _ H) as (before & after & -> & _).
  apply in_elt.
Qed.

(** C1: [find_column] returns the first column, in the order of the columns,
    whose lower-cased name contains a lower-cased keyword as a substring:
    every column before it contains none; it returns [None] exactly when no
    column contains one.  Being a function of the columns and the keywords,
    it gives the same answer on the same arguments. *)
Theorem find_column_first_match (cols keywords : list string) :
  match find_column cols keywords with
  | Some col =>
      exists before after,
        cols = before ++ col :: after /\
        name_has_keyword keywords col /\
        Forall (fun c => ~ name_has_keyword keywords c) before
  | None => Forall (fun c => ~ name_has_keyword keywords c) cols
  end.
Proof.
  destruct (find_column cols keywords) as [col|] eqn:H.
  - destruct (find_column_some _ _ _ H) as (before & after & -> & Hm & Hb).
    exists before, after. split; [reflexivity|]. split.
    + now apply column_matches_spec.
    + eapply Forall_impl; [|exact Hb]. intros c. apply column_matches_false.
  - eapply Forall_impl; [|exact (find_column_none _ _ H)].
    intros c. apply column_matches_false.
Qed.

(** ** Runs *)

Lemma trace_bind {A B} (m : Run A) (k : A -> Run B) :
  trace (bind m k) =
  trace m ++ match ending m with Done a => trace (k a) | _ => [] end.
Proof.
  destruct m as [t [a | code | exn]]; simpl; try now rewrite app_nil_r.
  now destruct (k a).
Qed.

Lemma ending_bind {A B} (m : Run A) (k : A -> Run B) :
  ending (bind m k) =
  match ending m with
  | Done a => ending (k a)
  | Exit code => Exit code
  | Raised exn => Raised exn
  end.
Proof.
  destruct m as [t [a | code | exn]]; simpl; try reflexivity.
  now destruct (k a).
Qed.

Lemma saved_app (t1 t2 : list Event) : saved (t1 ++ t2) = saved t1 ++ saved t2.
Proof.
  induction t1 as [|e t1 IH]; simpl; [reflexivity|].
  destruct e; simpl; now rewrite IH.
Qed.

Lemma printed_app (t1 t2 : list Event) : printed (t1 ++ t2) = printed t1 ++ printed t2.
Proof.
  induction t1 as [|e t1 IH]; simpl; [reflexivity|].
  destruct e; simpl; now rewrite IH.
Qed.

Lemma print_all_eq (lines : list string) :
  print_all lines = (map Print lines, Done tt).
Proof.
  induction lines as [|l lines IH]; simpl; [reflexivity|].
  unfold print, emit, bind. now rewrite IH.
Qed.

Lemma saved_prints (lines : list string) : saved (map Print lines) = [].
Proof. induction lines; simpl; auto. Qed.

Lemma printed_prints (lines : list string) : printed (map Print lines) = lines.
Proof. induction lines; simpl; congruence. Qed.

(** A property of every chart saved by both halves of a sequence holds of
    every chart the sequence saves. *)
Lemma saved_bind_Forall {A B} (P : Chart -> Prop) (m : Run A) (k : A -> Run B) :
  Forall P (saved (trace m)) ->
  (forall a, Forall P (saved (trace (k a)))) ->
  Forall P (saved (trace (bind m k))).
Proof.
  intros Hm Hk. rewrite trace_bind, saved_app. apply Forall_app. split; [exact Hm|].
  destruct (ending m); [apply Hk | constructor | constructor].
Qed.

Lemma saved_when_Forall (P : Chart -> Prop) (b : bool) (m : Run unit) :
  Forall P (saved (trace m)) -> Forall P (saved (trace (when b m))).
Proof. destruct b; simpl; [auto | constructor]. Qed.

(** ** Locator *)

Lemma csv_file_some (exists_ : string -> bool) (locations : list string) (file : string) :
  csv_file exists_ locations = Some file ->
  exists before after,
    locations = before ++ file :: after /\
    exists_ file = true /\
    Forall (fun l => exists_ l = false) before.
Proof.
  induction locations as [|l locations IH]; simpl; [discriminate|].
  destruct (exists_ l) eqn:Hl.
  - intros [= <-]. exists [], locations. auto.
  - intros H. destruct (IH H) as (before & after & -> & Hf & Hb).
    exists (l :: before), after. auto.
Qed.

Lemma csv_file_none (exists_ : string -> bool) (locations : list string) :
  csv_file exists_ locations = None -> Forall (fun l => exists_ l = false) locations.
Proof.
  induction locations as [|l locations IH]; simpl; [constructor|].
  destruct (exists_ l) eqn:Hl; [discriminate | auto].
Qed.

Lemma last_char (r : string) (c : ascii) :
  String.substring (String.length (r ++ String c EmptyString) - 1) 1 (r ++ String c EmptyString)
  = String c EmptyString.
Proof.
  induction r as [|a r IH]; [reflexivity|].
  cbn [String.append String.length]. rewrite Nat.sub_succ, Nat.sub_0_r.
  destruct (String.length (r ++ String c EmptyString)) as [|n] eqn:Hn.
  - destruct r; discriminate.
  - cbn [Nat.sub] in IH. rewrite Nat.sub_0_r in IH. exact IH.
Qed.

(** Under a directory whose name does not end in a slash, [os.path.join]
    adds one. *)
Lemma path_join_dir (r : string) (c : ascii) (b : string) :
  c <> "/"%char -> PyStr.startswith "/" b = false ->
  path_join (r ++ String c EmptyString) b = ((r ++ String c EmptyString) ++ "/" ++ b)%string.
Proof.
  intros Hc Hb. unfold path_join. rewrite Hb, last_char.
  assert (H : PyStr.startswith "/" (String c EmptyString) = false).
  { cbn [PyStr.startswith]. rewrite andb_true_r. apply Ascii.eqb_neq. congruence. }
  rewrite H. destruct r; reflexivity.
Qed.

Lemma append_assoc (a b c : string) : ((a ++ b) ++ c = a ++ b ++ c)%string.
Proof. induction a; simpl; congruence. Qed.

Lemma path_join_subdir (r : string) (c : ascii) (d : string) (c' : ascii) (b : string) :
  c <> "/"%char -> c' <> "/"%char ->
  PyStr.startswith "/" (d ++ String c' EmptyString) = false ->
  PyStr.startswith "/" b = false ->
  path_join (path_join (r ++ String c EmptyString) (d ++ String c' EmptyString)) b
  = (r ++ String c EmptyString ++ "/" ++ d ++ String c' EmptyString ++ "/" ++ b)%string.
Proof.
  intros Hc Hc' Hd Hb. rewrite path_join_dir by assumption.
  rewrite <- (append_assoc "/" d), <- (append_assoc (r ++ String c EmptyString)).
  rewrite path_join_dir by assumption.
  now rewrite !append_assoc.
Qed.

(** C5: the three candidate paths are the root's [results.csv],
    [output/results.csv] and [results/results.csv], in this order; the script
    goes on with the first of them that exists; when none exists it prints
    the three locations and exits with status 1. *)
Theorem locator_first_existing (env : Env) :
  let locations := possible_locations (project_root env) in
  (forall r c, c <> "/"%char ->
     possible_locations (r ++ String c EmptyString) =
     [ (r ++ String c EmptyString ++ "/results.csv")%string;
       (r ++ String c EmptyString ++ "/output/results.csv")%string;
       (r ++ String c EmptyString ++ "/results/results.csv")%string ]) /\
  match csv_file (path_exists env) locations with
  | Some file =>
      (exists before after,
         locations = before ++ file :: after /\
         path_exists env file = true /\
         Forall (fun l => path_exists env l = false) before) /\
      script env = load_and_plot env file
  | None =>
      Forall (fun l => path_exists env l = false) locations /\
      script env = (map Print (missing_file_report locations), Exit 1) /\
      Forall (fun l => In ("  - " ++ l)%string (printed (trace (script env)))) locations /\
      saved (trace (script env)) = [] /\
      exit_status (ending (script env)) = 1%Z
  end.
Proof.
  intros locations. split.
  - intros r c Hc. unfold possible_locations.
    change "output" with ("outpu" ++ String "t" EmptyString)%string.
    change "results" with ("result" ++ String "s" EmptyString)%string.
    rewrite !path_join_subdir by (assumption || discriminate || reflexivity).
    rewrite path_join_dir by (assumption || reflexivity).
    rewrite append_assoc. reflexivity.
  - unfold script. fold locations.
    destruct (csv_file (path_exists env) locations) as [file|] eqn:H.
    + split; [now apply csv_file_some | reflexivity].
    + assert (E : bind (print_all (missing_file_report locations)) (fun _ => exit 1)
                  = (map Print (missing_file_report locations), @Exit unit 1)).
      { rewrite print_all_eq. unfold bind, exit. now rewrite app_nil_r. }
      rewrite E. cbn [trace ending fst snd exit_status].
      rewrite printed_prints, saved_prints.
      repeat split; auto using csv_file_none.
      apply Forall_forall. intros l Hl. unfold missing_file_report.
      apply in_or_app. right. apply in_or_app. left.
      apply in_map_iff. now exists l.
Qed.

(** ** Chart renderer, column-based path *)

Lemma index_of_in (col : string) (cols : list string) :
  In col cols -> exists i, index_of col cols = Some i.
Proof.
  induction cols as [|c cols IH]; simpl; [contradiction|].
  intros [-> | H].
  - rewrite String.eqb_refl. now exists O.
  - destruct (String.eqb c col); [now exists O|].
    destruct (IH H) as [i ->]. now exists (S i).
Qed.

Lemma column_values_in (data : DataFrame) (col : string) :
  In col (columns data) -> exists values, column_values data col = Some values.
Proof.
  intros H. unfold column_values.
  destruct (index_of_in _ _ H) as [i ->]. eauto.
Qed.

Lemma column_values_length (data : DataFrame) (col : string) (values : list cell) :
  column_values data col = Some values -> List.length values = List.length (rows data).
Proof.
  unfold column_values. destruct (index_of col (columns data)); [|discriminate].
  intros [= <-]. apply length_map.
Qed.

Lemma call_cases (raised : option string) :
  call raised = match raised with
                | Some exn => ([], Raised exn)
                | None => ([], Done tt)
                end.
Proof. now destruct raised. Qed.

(** What one call of [create_bar_graph] does when its search finds a column,
    by what the plotting library refuses. *)
Lemma create_bar_graph_found (plt : Pyplot) (root : string) (data : DataFrame)
    (metric_name : string) (keywords : list string) (yl t col metric_col : string) :
  find_column (columns data) keywords = Some metric_col ->
  exists values labels,
    column_values data metric_col = Some values /\
    create_bar_graph plt root data metric_name keywords yl t col =
      match plt_bar plt values with
      | Some exn => ([], Raised exn)
      | None =>
          match bar_texts values with
          | None => ([], Raised "OverflowError")
          | Some bar_labels =>
              match plt_savefig plt (path_join root (graph_file_name metric_name)) with
              | Some exn => ([], Raised exn)
              | None =>
                  ( [ SaveFig (bar_chart root metric_name yl t col values bar_labels labels);
                      Print ("Saved: " ++ path_join root (graph_file_name metric_name));
                      ShowFig ], Done tt )
              end
          end
      end /\
    match columns data with
    | first_col :: _ =>
        if String.eqb first_col metric_col
        then labels = config_labels (List.length values)
        else column_values data first_col = Some labels
    | [] => False
    end.
Proof.
  intros Hf. pose proof (find_column_in _ _ _ Hf) as Hin.
  destruct (column_values_in data metric_col Hin) as [values Hv].
  unfold create_bar_graph. rewrite Hf, Hv.
  assert (Hrun : forall labels,
    bind (ret labels)
      (fun labels0 =>
         bind (call (plt_bar plt values))
           (fun _ =>
              match bar_texts values with
              | None => raise "OverflowError"
              | Some bar_labels =>
                  bind (call (plt_savefig plt
                                (output_file (bar_chart root metric_name yl t col
                                                values bar_labels labels0))))
                    (fun _ =>
                       bind (emit (SaveFig (bar_chart root metric_name yl t col
                                              values bar_labels labels0)))
                         (fun _ =>
                            bind (print ("Saved: " ++
                                         output_file (bar_chart root metric_name yl t col
                                                        values bar_labels labels0)))
                              (fun _ => emit ShowFig)))
              end))
    = match plt_bar plt values with
      | Some exn => ([], Raised exn)
      | None =>
          match bar_texts values with
          | None => ([], Raised "OverflowError")
          | Some bar_labels =>
              match plt_savefig plt (path_join root (graph_file_name metric_name)) with
              | Some exn => ([], Raised exn)
              | None =>
                  ( [ SaveFig (bar_chart root metric_name yl t col values bar_labels labels);
                      Print ("Saved: " ++ path_join root (graph_file_name metric_name));
                      ShowFig ], Done tt )
              end
          end
      end).
  { intros labels. cbn [output_file bar_chart]. rewrite !call_cases.
    destruct (plt_bar plt values); [reflexivity|].
    destruct (bar_texts values); [|reflexivity].
    destruct (plt_savefig plt _); reflexivity. }
  destruct (columns data) as [|first_col rest] eqn:Hc; [contradiction|].
  destruct rest as [|second rest].
  - (* a single column: it is the metric column *)
    destruct Hin as [-> | []]. rewrite String.eqb_refl.
    exists values, (config_labels (List.length values)).
    repeat apply conj; auto; apply Hrun.
  - change ((1 <? List.length (first_col :: second :: rest))%nat) with true. cbv iota.
    destruct (String.eqb first_col metric_col) eqn:He; cbn [negb].
    + exists values, (config_labels (List.length values)).
      repeat apply conj; auto; apply Hrun.
    + destruct (column_values_in data first_col) as [labels Hl].
      { rewrite Hc. now left. }
      rewrite Hl. exists values, labels. repeat apply conj; auto; apply Hrun.
Qed.

Lemma create_bar_graph_not_found (plt : Pyplot) (root : string) (data : DataFrame)
    (metric_name : string) (keywords : list string) (yl t col : string) :
  find_column (columns data) keywords = None ->
  create_bar_graph plt root data metric_name keywords yl t col =
    ( [ Print ("Warning: Could not find column for " ++ metric_name);
        PrintColumns "Available columns: " (columns data) ], Done tt ).
Proof. intros H. unfold create_bar_graph. now rewrite H. Qed.

(** What holds of the chart of a call that goes through holds of every chart
    the call saves. *)
Lemma create_bar_graph_saved_Forall (P : Chart -> Prop) (plt : Pyplot) (root : string)
    (data : DataFrame) (metric_name : string) (keywords : list string) (yl t col : string) :
  (forall metric_col values bar_labels labels,
     find_column (columns data) keywords = Some metric_col ->
     column_values data metric_col = Some values ->
     bar_texts values = Some bar_labels ->
     match columns data with
     | first_col :: _ =>
         if String.eqb first_col metric_col
         then labels = config_labels (List.length values)
         else column_values data first_col = Some labels
     | [] => False
     end ->
     P (bar_chart root metric_name yl t col values bar_labels labels)) ->
  Forall P (saved (trace (create_bar_graph plt root data metric_name keywords yl t col))).
Proof.
  intros HP.
  destruct (find_column (columns data) keywords) as [metric_col|] eqn:Hf.
  - destruct (create_bar_graph_found plt root data metric_name keywords yl t col
                metric_col Hf) as (values & labels & Hv & -> & Hl).
    destruct (plt_bar plt values); [constructor|].
    destruct (bar_texts values) as [bar_labels|] eqn:Ht; [|constructor].
    destruct (plt_savefig plt _); [constructor|].
    cbn [trace fst saved]. constructor; [|constructor]. now apply (HP metric_col).
  - rewrite (create_bar_graph_not_found _ _ _ _ _ _ _ _ Hf). constructor.
Qed.

Lemma create_bar_graph_saved (plt : Pyplot) (root : string) (data : DataFrame)
    (metric_name : string) (keywords : list string) (yl t col : string) :
  Forall (fun c => output_file c = path_join root (graph_file_name metric_name) /\
                   ylabel c = yl /\ color c = col)
         (saved (trace (create_bar_graph plt root data metric_name keywords yl t col))).
Proof. apply create_bar_graph_saved_Forall. intros. repeat split. Qed.

(** C8: when [create_bar_graph] finds the metric column, the bars of the
    chart it saves are that column's values; the category labels are the
    values of the table's first column when that column is not the metric
    column, and "Config 1", "Config 2", ... by position otherwise (the first
    column is the metric column, which is the case of a single column).  The
    chart is saved, and it is the only one, when matplotlib draws the bars
    and writes the file and every bar text can be formatted. *)
Theorem category_labels (plt : Pyplot) (root : string) (data : DataFrame)
    (metric_name : string) (keywords : list string) (yl t col metric_col : string) :
  find_column (columns data) keywords = Some metric_col ->
  exists values labels,
    column_values data metric_col = Some values /\
    (forall first_col rest, columns data = first_col :: rest ->
       first_col <> metric_col -> column_values data first_col = Some labels) /\
    (forall first_col rest, columns data = first_col :: rest ->
       first_col = metric_col ->
       labels =
       map (fun i => CStr ("Config " ++ PyStr.of_Z (Z.of_nat i + 1)))
           (seq 0 (List.length values))) /\
    (forall only, columns data = [only] ->
       only = metric_col /\ labels = config_labels (List.length values)) /\
    Forall (fun chart => heights chart = values /\ ticks chart = labels)
           (saved (trace (create_bar_graph plt root data metric_name keywords yl t col))) /\
    (plt_bar plt values = None ->
     bar_texts values <> None ->
     plt_savefig plt (path_join root (graph_file_name metric_name)) = None ->
     exists chart,
       saved (trace (create_bar_graph plt root data metric_name keywords yl t col))
         = [chart] /\
       heights chart = values /\ ticks chart = labels).
Proof.
  intros Hf.
  destruct (create_bar_graph_found plt root data metric_name keywords yl t col
              metric_col Hf) as (values & labels & Hv & Hrun & Hl).
  exists values, labels. repeat apply conj; auto.
  - intros first_col rest Hc Hne. rewrite Hc in Hl.
    apply String.eqb_neq in Hne. now rewrite Hne in Hl.
  - intros first_col rest Hc ->. rewrite Hc, String.eqb_refl in Hl. exact Hl.
  - intros only Hc. pose proof (find_column_in _ _ _ Hf) as Hin.
    rewrite Hc in Hin, Hl. destruct Hin as [-> | []].
    now rewrite String.eqb_refl in Hl.
  - rewrite Hrun. destruct (plt_bar plt values); [constructor|].
    destruct (bar_texts values); [|constructor].
    destruct (plt_savefig plt _); repeat constructor.
  - intros Hbar Htexts Hsave. rewrite Hrun, Hbar, Hsave.
    destruct (bar_texts values) as [bar_labels|]; [|congruence].
    exists (bar_chart root metric_name yl t col values bar_labels labels).
    repeat split.
Qed.

Lemma category_labels_witness :
  (exists values labels,
    column_values sample_columns "Delay" = Some values /\
    (forall first_col rest, columns sample_columns = first_col :: rest ->
       first_col <> "Delay" -> column_values sample_columns first_col = Some labels) /\
    (forall first_col rest, columns sample_columns = first_col :: rest ->
       first_col = "Delay" ->
       labels =
       map (fun i => CStr ("Config " ++ PyStr.of_Z (Z.of_nat i + 1)))
           (seq 0 (List.length values))) /\
    (forall only, columns sample_columns = [only] ->
       only = "Delay" /\ labels = config_labels (List.length values)) /\
    Forall (fun chart => heights chart = values /\ ticks chart = labels)
           (saved (trace (create_bar_graph sample_pyplot "/sim" sample_columns "Delay"
                            ["delay"] "Delay (ms)" "Delay Comparison" "green"))) /\
    (plt_bar sample_pyplot values = None ->
     bar_texts values <> None ->
     plt_savefig sample_pyplot (path_join "/sim" (graph_file_name "Delay")) = None ->
     exists chart,
       saved (trace (create_bar_graph sample_pyplot "/sim" sample_columns "Delay"
                       ["delay"] "Delay (ms)" "Delay Comparison" "green")) = [chart] /\
       heights chart = values /\ ticks chart = labels)) /\
  (exists values labels,
    column_values sample_metric_first "Delay" = Some values /\
    (forall first_col rest, columns sample_metric_first = first_col :: rest ->
       first_col <> "Delay" -> column_values sample_metric_first first_col = Some labels) /\
    (forall first_col rest, columns sample_metric_first = first_col :: rest ->
       first_col = "Delay" ->
       labels =
       map (fun i => CStr ("Config " ++ PyStr.of_Z (Z.of_nat i + 1)))
           (seq 0 (List.length values))) /\
    (forall only, columns sample_metric_first = [only] ->
       only = "Delay" /\ labels = config_labels (List.length values)) /\
    Forall (fun chart => heights chart = values /\ ticks chart = labels)
           (saved (trace (create_bar_graph sample_pyplot "/sim" sample_metric_first "Delay"
                            ["delay"] "Delay (ms)" "Delay Comparison" "green"))) /\
    (plt_bar sample_pyplot values = None ->
     bar_texts values <> None ->
     plt_savefig sample_pyplot (path_join "/sim" (graph_file_name "Delay")) = None ->
     exists chart,
       saved (trace (create_bar_graph sample_pyplot "/sim" sample_metric_first "Delay"
                       ["delay"] "Delay (ms)" "Delay Comparison" "green")) = [chart] /\
       heights chart = values /\ ticks chart = labels)).
Proof.
  split.
  - apply (category_labels sample_pyplot "/sim" sample_columns "Delay" ["delay"]
             "Delay (ms)" "Delay Comparison" "green" "Delay").
    reflexivity.
  - apply (category_labels sample_pyplot "/sim" sample_metric_first "Delay" ["delay"]
             "Delay (ms)" "Delay Comparison" "green" "Delay").
    reflexivity.
Defined.

(** The two branches of the labels on the samples: the first column names
    the bars, or, when it is the metric column, their position does. *)
Example category_labels_samples :
  map ticks (saved (trace (create_bar_graph sample_pyplot "/sim" sample_columns "Delay"
                             ["delay"] "Delay (ms)" "Delay Comparison" "green")))
    = [[CStr "Config1"]] /\
  map ticks (saved (trace (create_bar_graph sample_pyplot "/sim" sample_metric_first "Delay"
                             ["delay"] "Delay (ms)" "Delay Comparison" "green")))
    = [[CStr "Config 1"; CStr "Config 2"]] /\
  map heights (saved (trace (create_bar_graph sample_pyplot "/sim" sample_metric_first
                               "Delay" ["delay"] "Delay (ms)" "Delay Comparison" "green")))
    = [[CInt 5; CInt 6]].
Proof. vm_compute. repeat split. Qed.

(** ** Dictionaries *)

Lemma dict_get_set_same {V} (k : string) (v : V) (d : dict V) :
  dict_get k (dict_set k v d) = Some v.
Proof.
  induction d as [|[k' v'] d IH]; simpl.
  - now rewrite String.eqb_refl.
  - destruct (String.eqb k' k) eqn:E; simpl; now rewrite E.
Qed.

Lemma dict_get_set_other {V} (k k0 : string) (v : V) (d : dict V) :
  k0 <> k -> dict_get k (dict_set k0 v d) = dict_get k d.
Proof.
  intros Hne. induction d as [|[k' v'] d IH]; simpl.
  - apply String.eqb_neq in Hne. now rewrite Hne.
  - destruct (String.eqb k' k0) eqn:E; simpl.
    + apply String.eqb_eq in E. subst k'.
      apply String.eqb_neq in Hne. now rewrite Hne.
    + now rewrite IH.
Qed.

Lemma dict_set_keys {V} (k : string) (v : V) (d : dict V) :
  map fst (dict_set k v d) =
  if existsb (String.eqb k) (map fst d) then map fst d else map fst d ++ [k].
Proof.
  induction d as [|[k' v'] d IH]; simpl; [reflexivity|].
  rewrite (String.eqb_sym k k').
  destruct (String.eqb k' k) eqn:E; simpl; [reflexivity|].
  rewrite IH. now destruct (existsb (String.eqb k) (map fst d)).
Qed.

Lemma dict_set_NoDup {V} (k : string) (v : V) (d : dict V) :
  NoDup (map fst d) -> NoDup (map fst (dict_set k v d)).
Proof.
  intros H. rewrite dict_set_keys.
  destruct (existsb (String.eqb k) (map fst d)) eqn:E; [exact H|].
  apply NoDup_app; [exact H | repeat constructor; intros [] |].
  intros x Hx [Hk | []]. subst x.
  assert (existsb (String.eqb k) (map fst d) = true); [|congruence].
  apply existsb_exists. exists k. split; [exact Hx | apply String.eqb_refl].
Qed.

Lemma dict_set_keys_Forall {V} (P : string -> Prop) (k : string) (v : V) (d : dict V) :
  P k -> Forall P (map fst d) -> Forall P (map fst (dict_set k v d)).
Proof.
  intros Hk H. rewrite dict_set_keys.
  destruct (existsb (String.eqb k) (map fst d)); [exact H|].
  apply Forall_app. auto.
Qed.

Lemma dict_get_notin {V} (k : string) (d : dict V) :
  ~ In k (map fst d) -> dict_get k d = None.
Proof.
  induction d as [|[k' v'] d IH]; simpl; [reflexivity|].
  intros H. destruct (String.eqb k' k) eqn:E.
  - apply String.eqb_eq in E. tauto.
  - apply IH. tauto.
Qed.

Lemma dict_get_in {V} (k : string) (v : V) (d : dict V) :
  NoDup (map fst d) -> In (k, v) d -> dict_get k d = Some v.
Proof.
  induction d as [|[k' v'] d IH]; simpl; [contradiction|].
  intros Hnd [[= -> ->] | Hin].
  - now rewrite String.eqb_refl.
  - inversion Hnd as [|? ? Hk' Hnd']; subst.
    destruct (String.eqb k' k) eqn:E; [|auto].
    apply String.eqb_eq in E. subst k'. exfalso. apply Hk'.
    apply in_map_iff. now exists (k, v).
Qed.

Lemma dict_get_some_in {V} (k : string) (v : V) (d : dict V) :
  dict_get k d = Some v -> In k (map fst d).
Proof.
  induction d as [|[k' v'] d IH]; simpl; [discriminate|].
  destruct (String.eqb k' k) eqn:E; [|auto].
  apply String.eqb_eq in E. auto.
Qed.

(** ** Row-structure fallback *)

Section OneRecord.

Variable cols : list string.
Variable row : list cell.
Variable text : string.

Let body := match_metric cols row text.

(** What the loop over the metrics leaves under one key. *)
Lemma match_metric_fold_get (items : dict (list string)) (d : dict (list float))
    (metric : string) :
  NoDup (map fst items) ->
  dict_get metric (fold_left body items d) =
  match dict_get metric items with
  | Some keywords =>
      if row_matches keywords text && has_values cols row
      then Some (row_values cols row)
      else dict_get metric d
  | None => dict_get metric d
  end.
Proof.
  revert d. induction items as [|[m kws] items IH]; intros d Hnd; [reflexivity|].
  inversion Hnd as [|? ? Hm Hnd']; subst. cbn [fold_left]. rewrite IH by assumption.
  cbn [dict_get]. destruct (String.eqb m metric) eqn:E.
  - apply String.eqb_eq in E. subst m.
    rewrite (dict_get_notin metric items Hm).
    unfold body, match_metric, has_values.
    destruct (row_matches kws text); [|reflexivity].
    destruct (row_values cols row) eqn:Ev; [reflexivity|].
    cbn [andb]. apply dict_get_set_same.
  - apply String.eqb_neq in E.
    assert (Hd : dict_get metric (body d (m, kws)) = dict_get metric d).
    { unfold body, match_metric. destruct (row_matches kws text); [|reflexivity].
      destruct (row_values cols row); [reflexivity|].
      now apply dict_get_set_other. }
    rewrite Hd. reflexivity.
Qed.

(** A record without numbers changes nothing. *)
Lemma match_metric_fold_empty (items : dict (list string)) (d : dict (list float)) :
  has_values cols row = false -> fold_left body items d = d.
Proof.
  unfold has_values. intros H. revert d.
  induction items as [|[m kws] items IH]; intros d; [reflexivity|].
  cbn [fold_left]. rewrite IH. unfold body, match_metric.
  destruct (row_matches kws text); [|reflexivity].
  now destruct (row_values cols row).
Qed.

Lemma match_metric_fold_NoDup (items : dict (list string)) (d : dict (list float)) :
  NoDup (map fst d) -> NoDup (map fst (fold_left body items d)).
Proof.
  revert d. induction items as [|[m kws] items IH]; intros d H; [exact H|].
  cbn [fold_left]. apply IH. unfold body, match_metric.
  destruct (row_matches kws text); [|exact H].
  destruct (row_values cols row); [exact H|]. now apply dict_set_NoDup.
Qed.

Lemma match_metric_fold_keys (P : string -> Prop)
    (items : dict (list string)) (d : dict (list float)) :
  Forall P (map fst items) -> Forall P (map fst d) ->
  Forall P (map fst (fold_left body items d)).
Proof.
  revert d. induction items as [|[m kws] items IH]; intros d Hi H; [exact H|].
  inversion Hi; subst. cbn [fold_left]. apply IH; [assumption|].
  unfold body, match_metric.
  destruct (row_matches kws text); [|exact H].
  destruct (row_values cols row); [exact H|]. now apply dict_set_keys_Forall.
Qed.

End OneRecord.

Lemma metric_keywords_NoDup : NoDup (map fst metric_keywords).
Proof.
  repeat constructor; simpl; intuition discriminate.
Qed.

Lemma row_get_first (first_col : string) (rest : list string) (row : list cell) :
  row_get (first_col :: rest) row first_col = Some (cell_at row 0).
Proof. unfold row_get. simpl. now rewrite String.eqb_refl. Qed.

Lemma scan_row_step (first_col : string) (rest : list string)
    (d : dict (list float)) (row : list cell) :
  scan_row (first_col :: rest) first_col d row = Some (scan_step (first_col :: rest) d row).
Proof. unfold scan_row. now rewrite row_get_first. Qed.

Lemma scan_rows_fold (first_col : string) (rest : list string)
    (d : dict (list float)) (rs : list (list cell)) :
  scan_rows (first_col :: rest) first_col d rs
  = Some (fold_left (scan_step (first_col :: rest)) rs d).
Proof.
  revert d. induction rs as [|row rs IH]; intros d; [reflexivity|].
  cbn [scan_rows fold_left]. now rewrite scan_row_step, IH.
Qed.

(** What one record leaves under the key of a metric. *)
Lemma scan_step_get (cols : list string) (d : dict (list float)) (row : list cell)
    (metric : string) (keywords : list string) :
  In (metric, keywords) metric_keywords ->
  dict_get metric (scan_step cols d row) =
  if names_metric keywords row && has_values cols row
  then Some (row_values cols row)
  else dict_get metric d.
Proof.
  intros Hin. unfold scan_step.
  rewrite match_metric_fold_get by apply metric_keywords_NoDup.
  now rewrite (dict_get_in _ _ _ metric_keywords_NoDup Hin).
Qed.

Lemma scan_step_empty (cols : list string) (d : dict (list float)) (row : list cell) :
  has_values cols row = false -> scan_step cols d row = d.
Proof. apply match_metric_fold_empty. Qed.

Lemma scan_fold_NoDup (cols : list string) (rs : list (list cell)) (d : dict (list float)) :
  NoDup (map fst d) -> NoDup (map fst (fold_left (scan_step cols) rs d)).
Proof.
  revert d. induction rs as [|row rs IH]; intros d H; [exact H|].
  cbn [fold_left]. apply IH. now apply match_metric_fold_NoDup.
Qed.

Lemma scan_fold_keys (cols : list string) (rs : list (list cell)) (d : dict (list float)) :
  Forall (fun k => In k (map fst metric_keywords)) (map fst d) ->
  Forall (fun k => In k (map fst metric_keywords))
         (map fst (fold_left (scan_step cols) rs d)).
Proof.
  revert d. induction rs as [|row rs IH]; intros d H; [exact H|].
  cbn [fold_left]. apply IH. apply match_metric_fold_keys; [|exact H].
  apply Forall_forall. auto.
Qed.

(** A metric no later record sets keeps its series. *)
Lemma scan_fold_keeps (cols : list string) (rs : list (list cell)) (d : dict (list float))
    (metric : string) (keywords : list string) :
  In (metric, keywords) metric_keywords ->
  Forall (fun row => names_metric keywords row = true -> has_values cols row = false) rs ->
  dict_get metric (fold_left (scan_step cols) rs d) = dict_get metric d.
Proof.
  intros Hin. revert d. induction rs as [|row rs IH]; intros d H; [reflexivity|].
  inversion H as [|? ? Hrow Hrs]; subst. cbn [fold_left].
  rewrite IH by assumption. rewrite (scan_step_get _ _ _ _ _ Hin).
  destruct (names_metric keywords row); [|reflexivity].
  now rewrite Hrow.
Qed.

Lemma dict_get_member {V} (k : string) (v : V) (d : dict V) :
  dict_get k d = Some v -> In (k, v) d.
Proof.
  induction d as [|[k' v'] d IH]; simpl; [discriminate|].
  destruct (String.eqb k' k) eqn:E; [|auto].
  apply String.eqb_eq in E. intros [= ->]. subst. now left.
Qed.

Lemma dict_get_key {V} (k : string) (v : V) (d : dict V) :
  In (k, v) d -> dict_get k d <> None.
Proof.
  induction d as [|[k' v'] d IH]; simpl; [contradiction|].
  intros [[= -> ->] | H].
  - now rewrite String.eqb_refl.
  - destruct (String.eqb k' k); [discriminate | auto].
Qed.

(** *** The file of a metric *)

Lemma append_cancel_l (p x y : string) : (p ++ x = p ++ y)%string -> x = y.
Proof. induction p as [|c p IH]; simpl; [auto | intros [= H]; auto]. Qed.

Lemma path_join_inj (root a b : string) :
  PyStr.startswith "/" a = false -> PyStr.startswith "/" b = false ->
  path_join root a = path_join root b -> a = b.
Proof.
  intros Ha Hb. unfold path_join. rewrite Ha, Hb.
  destruct root as [|c root]; [auto|].
  set (r := String c root).
  destruct (PyStr.startswith "/" (String.substring (String.length r - 1) 1 r)); intros H.
  - now apply append_cancel_l in H.
  - apply append_cancel_l in H. now injection H.
Qed.

(** Two of the four metrics do not share a file. *)
Lemma graph_file_inj (root a b : string) :
  In a (map fst metric_keywords) -> In b (map fst metric_keywords) ->
  path_join root (graph_file_name a) = path_join root (graph_file_name b) -> a = b.
Proof.
  intros Ha Hb H.
  assert (E : graph_file_name a = graph_file_name b).
  { cbn [map fst metric_keywords In] in Ha, Hb.
    apply (path_join_inj root); [| | exact H].
    - destruct Ha as [<- | [<- | [<- | [<- | []]]]]; reflexivity.
    - destruct Hb as [<- | [<- | [<- | [<- | []]]]]; reflexivity. }
  cbn [map fst metric_keywords In] in Ha, Hb.
  destruct Ha as [<- | [<- | [<- | [<- | []]]]];
    destruct Hb as [<- | [<- | [<- | [<- | []]]]];
    first [reflexivity | discriminate E].
Qed.

(** *** The loop that draws *)

(** One turn of the loop over [metric_rows.items()]. *)
Lemma draw_rows_cons (plt : Pyplot) (root metric : string) (values : list float)
    (rest : dict (list float)) :
  draw_rows plt root ((metric, values) :: rest) =
  match plt_bar plt (heights (row_chart root metric values)) with
  | Some exn => ([], Raised exn)
  | None =>
      match plt_savefig plt (output_file (row_chart root metric values)) with
      | Some exn => ([], Raised exn)
      | None =>
          ( [ SaveFig (row_chart root metric values);
              Print ("Saved: " ++ output_file (row_chart root metric values));
              ShowFig ] ++ trace (draw_rows plt root rest),
            ending (draw_rows plt root rest) )
      end
  end.
Proof.
  cbn [draw_rows]. rewrite !call_cases.
  destruct (plt_bar plt _); [reflexivity|].
  destruct (plt_savefig plt _); [reflexivity|].
  cbn [bind emit print]. now destruct (draw_rows plt root rest).
Qed.

Lemma Forall_firstn {A} (P : A -> Prop) (n : nat) (l : list A) :
  Forall P l -> Forall P (firstn n l).
Proof.
  intros H. revert n. induction H as [|x l Hx _ IH]; intros [|n]; simpl; auto.
Qed.

Lemma In_firstn {A} (x : A) (n : nat) (l : list A) : In x (firstn n l) -> In x l.
Proof.
  revert n. induction l as [|y l IH]; intros [|n]; simpl; try contradiction.
  intros [-> | H]; eauto.
Qed.

Lemma NoDup_firstn {A} (n : nat) (l : list A) : NoDup l -> NoDup (firstn n l).
Proof.
  intros H. revert n. induction H as [|x l Hx _ IH]; intros [|n]; simpl;
    try constructor; auto.
  intros Hin. apply Hx. now apply In_firstn with n.
Qed.

(** The charts drawn are the first ones of [metric_rows], in order, as far
    as the loop gets. *)
Lemma draw_rows_saved (plt : Pyplot) (root : string) (items : dict (list float)) :
  exists n,
    saved (trace (draw_rows plt root items))
    = firstn n (map (fun item => row_chart root (fst item) (snd item)) items).
Proof.
  induction items as [|[metric values] items [n IH]]; [now exists O|].
  rewrite draw_rows_cons.
  destruct (plt_bar plt _); [now exists O|].
  destruct (plt_savefig plt _); [now exists O|].
  exists (S n). cbn [trace fst app saved map firstn]. now rewrite IH.
Qed.

Lemma draw_rows_done (plt : Pyplot) (root : string) (items : dict (list float)) :
  ending (draw_rows plt root items) = Done tt ->
  saved (trace (draw_rows plt root items))
  = map (fun item => row_chart root (fst item) (snd item)) items.
Proof.
  induction items as [|[metric values] items IH]; [reflexivity|].
  rewrite draw_rows_cons.
  destruct (plt_bar plt _); [discriminate|].
  destruct (plt_savefig plt _); [discriminate|].
  cbn [trace ending fst snd app saved map]. intros H. now rewrite IH.
Qed.

Lemma draw_rows_ending (plt : Pyplot) (root : string) (items : dict (list float)) :
  ending (draw_rows plt root items) = Done tt \/
  exists exn, ending (draw_rows plt root items) = Raised exn /\
              ((exists values, plt_bar plt values = Some exn) \/
               (exists path, plt_savefig plt path = Some exn)).
Proof.
  induction items as [|[metric values] items IH]; [now left|].
  rewrite draw_rows_cons.
  destruct (plt_bar plt _) as [exn|] eqn:Hb; [right; exists exn; eauto|].
  destruct (plt_savefig plt _) as [exn|] eqn:Hs; [right; exists exn; eauto|].
  exact IH.
Qed.

(** The fallback on a table with a first column, in one equation. *)
Lemma fallback_eq (plt : Pyplot) (root : string) (data : DataFrame)
    (first_col : string) (rest : list string) :
  columns data = first_col :: rest ->
  let metric_rows := fold_left (scan_step (columns data)) (rows data) [] in
  create_graphs_from_row_structure plt root data =
  match metric_rows with
  | [] => ([], Done false)
  | _ => bind (draw_rows plt root metric_rows) (fun _ => ret true)
  end.
Proof.
  intros Hc metric_rows. unfold create_graphs_from_row_structure.
  subst metric_rows. rewrite Hc, scan_rows_fold.
  now destruct (fold_left _ _ _).
Qed.

(** What the fallback saves and how it ends, from [metric_rows]. *)
Lemma fallback_cases (plt : Pyplot) (root : string) (data : DataFrame)
    (first_col : string) (rest : list string) :
  columns data = first_col :: rest ->
  let metric_rows := fold_left (scan_step (columns data)) (rows data) [] in
  let charts := map (fun item => row_chart root (fst item) (snd item)) metric_rows in
  (exists n, saved (trace (create_graphs_from_row_structure plt root data))
             = firstn n charts) /\
  (ending (create_graphs_from_row_structure plt root data) = Done true ->
   saved (trace (create_graphs_from_row_structure plt root data)) = charts /\
   metric_rows <> []) /\
  (ending (create_graphs_from_row_structure plt root data) = Done false <->
   metric_rows = []).
Proof.
  intros Hc metric_rows charts. subst charts.
  rewrite (fallback_eq plt root data first_col rest Hc). cbv zeta. fold metric_rows.
  destruct metric_rows as [|item items] eqn:E.
  - repeat apply conj; try discriminate; auto. now exists O.
  - rewrite trace_bind, ending_bind, saved_app.
    destruct (draw_rows_saved plt root (item :: items)) as [n Hn].
    repeat apply conj.
    + exists n. rewrite Hn.
      destruct (ending (draw_rows plt root (item :: items))); cbn; now rewrite app_nil_r.
    + destruct (ending (draw_rows plt root (item :: items))) as [[]| |] eqn:Hd;
        try discriminate.
      intros _. rewrite (draw_rows_done _ _ _ Hd). cbn [trace ret fst saved].
      rewrite app_nil_r. split; [reflexivity | discriminate].
    + destruct (ending (draw_rows plt root (item :: items))) as [[]| |]; discriminate.
    + discriminate.
Qed.

(** *** Which record a metric's chart is drawn from *)

(** C3 (as the code has it): in the row-based fallback every metric is
    charted at most once, and when several records name the same metric the
    chart is drawn from the last of them that has a number after the first
    column: whatever chart is written to the file of the metric has the
    series of that record as its bars, and when the fallback returns [True]
    there is such a chart. *)
Theorem fallback_last_matching_row (plt : Pyplot) (root : string) (data : DataFrame)
    (first_col : string) (rest : list string) :
  columns data = first_col :: rest ->
  exists metric_rows,
    scan_rows (columns data) first_col [] (rows data) = Some metric_rows /\
    NoDup (map fst metric_rows) /\
    NoDup (map output_file (saved (trace (create_graphs_from_row_structure plt root data)))) /\
    forall metric keywords before row after,
      In (metric, keywords) metric_keywords ->
      rows data = before ++ row :: after ->
      names_metric keywords row = true ->
      has_values (columns data) row = true ->
      Forall (fun later => names_metric keywords later = true ->
                           has_values (columns data) later = false) after ->
      dict_get metric metric_rows = Some (row_values (columns data) row) /\
      Forall (fun chart =>
                output_file chart = path_join root (graph_file_name metric) ->
                heights chart = map CFloat (row_values (columns data) row) /\
                texts chart = map PyFloat.format_2f (row_values (columns data) row))
             (saved (trace (create_graphs_from_row_structure plt root data))) /\
      (ending (create_graphs_from_row_structure plt root data) = Done true ->
       exists chart,
         In chart (saved (trace (create_graphs_from_row_structure plt root data))) /\
         output_file chart = path_join root (graph_file_name metric) /\
         heights chart = map CFloat (row_values (columns data) row)).
Proof.
  intros Hc.
  destruct (fallback_cases plt root data first_col rest Hc) as ([n Hn] & Htrue & _).
  pose proof (scan_fold_keys (columns data) (rows data) [] (Forall_nil _)) as Hk.
  pose proof (scan_fold_NoDup (columns data) (rows data) [] (NoDup_nil _)) as Hnd.
  set (metric_rows := fold_left (scan_step (columns data)) (rows data) []) in *.
  exists metric_rows. repeat apply conj.
  - pose proof (scan_rows_fold first_col rest [] (rows data)) as Hs.
    rewrite <- Hc in Hs. exact Hs.
  - exact Hnd.
  - rewrite Hn, <- !firstn_map. apply NoDup_firstn.
    rewrite map_map. cbn [output_file row_chart].
    rewrite <- (map_map fst (fun m => path_join root (graph_file_name m))).
    apply NoDup_map_NoDup_ForallPairs; [|exact Hnd].
    rewrite Forall_forall in Hk. intros a b Ha Hb. apply graph_file_inj; auto.
  - intros metric keywords before row after Hin Hrows Hname Hval Hlater.
    assert (Hget : dict_get metric metric_rows = Some (row_values (columns data) row)).
    { subst metric_rows. rewrite Hrows, fold_left_app. cbn [fold_left].
      rewrite (scan_fold_keeps _ _ _ _ _ Hin Hlater).
      rewrite (scan_step_get _ _ _ _ _ Hin), Hname, Hval. reflexivity. }
    repeat apply conj.
    + exact Hget.
    + rewrite Hn. apply Forall_firstn. apply Forall_map. apply Forall_forall.
      intros [m v] Hmv Hfile. cbn [output_file row_chart fst snd] in Hfile.
      assert (m = metric).
      { apply (graph_file_inj root); [| |exact Hfile].
        - rewrite Forall_forall in Hk. apply Hk. apply in_map_iff. now exists (m, v).
        - apply in_map_iff. now exists (metric, keywords). }
      subst m. rewrite (dict_get_in _ _ _ Hnd Hmv) in Hget. injection Hget as ->.
      split; reflexivity.
    + intros Hend. destruct (Htrue Hend) as [-> _].
      exists (row_chart root metric (row_values (columns data) row)).
      repeat split. apply in_map_iff.
      exists (metric, row_values (columns data) row). split; [reflexivity|].
      now apply dict_get_member.
Qed.

Lemma fallback_last_matching_row_witness :
  exists metric_rows,
    scan_rows (columns sample_two_delays) "Metric" [] (rows sample_two_delays)
      = Some metric_rows /\
    NoDup (map fst metric_rows) /\
    NoDup (map output_file
             (saved (trace (create_graphs_from_row_structure sample_pyplot "/sim"
                              sample_two_delays)))) /\
    forall metric keywords before row after,
      In (metric, keywords) metric_keywords ->
      rows sample_two_delays = before ++ row :: after ->
      names_metric keywords row = true ->
      has_values (columns sample_two_delays) row = true ->
      Forall (fun later => names_metric keywords later = true ->
                           has_values (columns sample_two_delays) later = false) after ->
      dict_get metric metric_rows = Some (row_values (columns sample_two_delays) row) /\
      Forall (fun chart =>
                output_file chart = path_join "/sim" (graph_file_name metric) ->
                heights chart = map CFloat (row_values (columns sample_two_delays) row) /\
                texts chart
                  = map PyFloat.format_2f (row_values (columns sample_two_delays) row))
             (saved (trace (create_graphs_from_row_structure sample_pyplot "/sim"
                              sample_two_delays))) /\
      (ending (create_graphs_from_row_structure sample_pyplot "/sim" sample_two_delays)
         = Done true ->
       exists chart,
         In chart (saved (trace (create_graphs_from_row_structure sample_pyplot "/sim"
                                   sample_two_delays))) /\
         output_file chart = path_join "/sim" (graph_file_name metric) /\
         heights chart = map CFloat (row_values (columns sample_two_delays) row)).
Proof.
  apply (fallback_last_matching_row sample_pyplot "/sim" sample_two_delays "Metric"
           ["Config1"; "Config2"]).
  reflexivity.
Defined.

(** C3, as stated, fails: of two records named "Delay" the chart shows the
    second, not the first. *)
Lemma first_matching_row_not_charted :
  names_metric ["delay"] [CStr "Delay"; CInt 1; CInt 2] = true /\
  names_metric ["delay"] [CStr "Delay"; CInt 3; CInt 4] = true /\
  map PyFloat.format_2f
      (row_values (columns sample_two_delays) [CStr "Delay"; CInt 1; CInt 2])
    = ["1.00"; "2.00"] /\
  map texts (saved (trace (main sample_pyplot "/sim" sample_two_delays)))
    = [["3.00"; "4.00"]] /\
  map heights (saved (trace (main sample_pyplot "/sim" sample_two_delays)))
    = [[CFloat 3%float; CFloat 4%float]].
Proof. vm_compute. repeat split. Qed.

(** A later record whose numbers are all beyond the floats has no series:
    the chart stays with the record before it. *)
Example overflowing_record_is_passed_over :
  row_values (columns sample_two_delays)
             [CStr "Delay"; CInt (10 ^ 400); CInt (10 ^ 400)] = [] /\
  map texts
      (saved (trace (main sample_pyplot "/sim"
                       {| columns := ["Metric"; "Config1"; "Config2"];
                          rows := [ [CStr "Delay"; CInt 1; CInt 2];
                                    [CStr "Delay"; CInt (10 ^ 400); CInt (10 ^ 400)] ] |})))
    = [["1.00"; "2.00"]].
Proof. vm_compute. repeat split. Qed.

(** *** Cells that are not numbers *)

Lemma index_of_middle (before : list string) (col : string) (after : list string) :
  ~ In col before -> index_of col (before ++ col :: after) = Some (List.length before).
Proof.
  induction before as [|c before IH]; intros H; simpl.
  - now rewrite String.eqb_refl.
  - destruct (String.eqb c col) eqn:E.
    + apply String.eqb_eq in E. subst c. exfalso. apply H. now left.
    + rewrite IH; [reflexivity|]. intros Hin. apply H. now right.
Qed.

(** With distinct labels, looking the labels up in a record walks through its
    cells by position. *)
Lemma row_get_positions (row : list cell) (before cols : list string) :
  NoDup (before ++ cols) ->
  map (row_get (before ++ cols) row) cols
  = map (fun i => Some (cell_at row i)) (seq (List.length before) (List.length cols)).
Proof.
  revert before. induction cols as [|c cols IH]; intros before Hnd; [reflexivity|].
  cbn [map List.length seq]. f_equal.
  - unfold row_get. rewrite index_of_middle; [reflexivity|].
    apply NoDup_remove_2 in Hnd. intros Hin. apply Hnd. apply in_or_app. now left.
  - specialize (IH (before ++ [c])). rewrite <- app_assoc in IH. cbn [app] in IH.
    rewrite IH by assumption. rewrite length_app. cbn [List.length].
    now rewrite Nat.add_1_r.
Qed.

Lemma cells_by_position (before cells : list cell) :
  map (cell_at (before ++ cells)) (seq (List.length before) (List.length cells)) = cells.
Proof.
  revert before. induction cells as [|c cells IH]; intros before; [reflexivity|].
  cbn [map List.length seq]. f_equal.
  - unfold cell_at. now rewrite nth_middle.
  - specialize (IH (before ++ [c])). rewrite <- app_assoc, length_app in IH.
    cbn [app List.length] in IH. now rewrite Nat.add_1_r in IH.
Qed.

(** The series of a record is what [float] accepts among the cells after the
    first, in order. *)
Lemma row_values_numeric (cols : list string) (row : list cell) :
  NoDup cols -> List.length row = List.length cols ->
  row_values cols row = numeric (tl row).
Proof.
  intros Hnd Hlen. destruct cols as [|c cols]; destruct row as [|x row]; try discriminate.
  - reflexivity.
  - unfold row_values, numeric. cbn [tl].
    assert (E : flat_map
                  (fun col => match row_get (c :: cols) (x :: row) col with
                              | Some c0 => match py_float c0 with
                                           | Some val => [val]
                                           | None => []
                                           end
                              | None => []
                              end) cols
                = flat_map (fun o : option cell =>
                              match o with
                              | Some c0 => match py_float c0 with
                                           | Some val => [val]
                                           | None => []
                                           end
                              | None => []
                              end) (map (row_get (c :: cols) (x :: row)) cols)).
    { now rewrite flat_map_concat_map, flat_map_concat_map, map_map. }
    pose proof (row_get_positions (x :: row) [c] cols Hnd) as Hp.
    pose proof (cells_by_position [x] row) as Hq.
    cbn [app List.length] in Hp, Hq.
    injection Hlen as Hlen.
    rewrite E, Hp, <- (map_map (cell_at (x :: row)) Some), <- Hlen, Hq.
    now rewrite !flat_map_concat_map, map_map.
Qed.


Lemma numeric_nil (cells : list cell) :
  Forall (fun c => py_float c = None) cells -> numeric cells = [].
Proof.
  induction 1 as [|c cells Hc _ IH]; [reflexivity|].
  unfold numeric in *. cbn [flat_map]. now rewrite Hc, IH.
Qed.



(** A whole number beyond the floats is such a cell: [float] raises
    [OverflowError] and the cell is left out. *)
Example overflowing_cell_is_dropped :
  py_float (CInt (10 ^ 400)) = None /\
  py_float (CInt (2 ^ 1024 - 2 ^ 970 - 1)) <> None /\
  map PyFloat.format_2f
      (row_values (columns sample_gaps)
                  [CStr "Delay"; CInt (10 ^ 400); CInt 5; CStr "failed"])
    = ["5.00"].
Proof.
  repeat apply conj; [vm_compute; reflexivity | | vm_compute; reflexivity].
  vm_compute. discriminate.
Qed.

(** *** Records without numbers *)

Lemma scan_fold_filter (cols : list string) (rs : list (list cell)) (d : dict (list float)) :
  fold_left (scan_step cols) (filter (has_values cols) rs) d
  = fold_left (scan_step cols) rs d.
Proof.
  revert d. induction rs as [|row rs IH]; intros d; [reflexivity|].
  cbn [filter fold_left]. destruct (has_values cols row) eqn:E.
  - cbn [fold_left]. apply IH.
  - rewrite (scan_step_empty _ _ _ E). apply IH.
Qed.

(** C10: a record whose cells after the first are all rejected by [float]
    has an empty series; such records leave [metric_rows] as it is, so the
    fallback does on the table what it does on the table without them; a
    metric named by such records only gets no entry, and no chart is written
    to its file; and when every record is such a record the fallback draws
    nothing and returns [False]. *)
Theorem empty_series_populates_nothing (plt : Pyplot) (root : string) (data : DataFrame)
    (first_col : string) (rest : list string) :
  columns data = first_col :: rest ->
  (forall row,
     NoDup (columns data) -> List.length row = List.length (columns data) ->
     Forall (fun c => py_float c = None) (tl row) ->
     row_values (columns data) row = [] /\ has_values (columns data) row = false) /\
  create_graphs_from_row_structure plt root data
    = create_graphs_from_row_structure plt root (without_empty_series data) /\
  (forall metric keywords,
     In (metric, keywords) metric_keywords ->
     Forall (fun row => names_metric keywords row = true ->
                        has_values (columns data) row = false) (rows data) ->
     exists metric_rows,
       scan_rows (columns data) first_col [] (rows data) = Some metric_rows /\
       dict_get metric metric_rows = None /\
       Forall (fun chart => output_file chart <> path_join root (graph_file_name metric))
              (saved (trace (create_graphs_from_row_structure plt root data)))) /\
  (Forall (fun row => has_values (columns data) row = false) (rows data) ->
   create_graphs_from_row_structure plt root data = ([], Done false)).
Proof.
  intros Hc. repeat apply conj.
  - intros row Hnd Hlen Hall.
    assert (E : row_values (columns data) row = []).
    { rewrite (row_values_numeric _ _ Hnd Hlen). now apply numeric_nil. }
    unfold has_values. now rewrite E.
  - rewrite (fallback_eq plt root data first_col rest Hc).
    rewrite (fallback_eq plt root (without_empty_series data) first_col rest Hc).
    cbn [without_empty_series columns rows]. now rewrite scan_fold_filter.
  - intros metric keywords Hin Hall.
    exists (fold_left (scan_step (columns data)) (rows data) []).
    assert (Hget : dict_get metric (fold_left (scan_step (columns data)) (rows data) [])
                   = None).
    { now rewrite (scan_fold_keeps _ _ _ _ _ Hin Hall). }
    repeat apply conj.
    + pose proof (scan_rows_fold first_col rest [] (rows data)) as Hs.
      rewrite <- Hc in Hs. exact Hs.
    + exact Hget.
    + destruct (fallback_cases plt root data first_col rest Hc) as ([n Hn] & _).
      pose proof (scan_fold_keys (columns data) (rows data) [] (Forall_nil _)) as Hk.
      rewrite Hn. apply Forall_firstn. apply Forall_map. apply Forall_forall.
      intros [m v] Hmv Hfile. cbn [output_file row_chart fst snd] in Hfile.
      assert (m = metric).
      { apply (graph_file_inj root); [| |exact Hfile].
        - rewrite Forall_forall in Hk. apply Hk. apply in_map_iff. now exists (m, v).
        - apply in_map_iff. now exists (metric, keywords). }
      subst m. now apply (dict_get_key _ _ _ Hmv).
  - intros Hall. rewrite (fallback_eq plt root data first_col rest Hc). cbv zeta.
    assert (E : fold_left (scan_step (columns data)) (rows data) [] = []).
    { induction Hall as [|row rs Hrow _ IH]; [reflexivity|].
      cbn [fold_left]. now rewrite (scan_step_empty _ _ _ Hrow). }
    now rewrite E.
Qed.

Lemma empty_series_populates_nothing_witness :
  (forall row,
     NoDup (columns sample_gaps) -> List.length row = List.length (columns sample_gaps) ->
     Forall (fun c => py_float c = None) (tl row) ->
     row_values (columns sample_gaps) row = [] /\
     has_values (columns sample_gaps) row = false) /\
  create_graphs_from_row_structure sample_pyplot "/sim" sample_gaps
    = create_graphs_from_row_structure sample_pyplot "/sim"
        (without_empty_series sample_gaps) /\
  (forall metric keywords,
     In (metric, keywords) metric_keywords ->
     Forall (fun row => names_metric keywords row = true ->
                        has_values (columns sample_gaps) row = false) (rows sample_gaps) ->
     exists metric_rows,
       scan_rows (columns sample_gaps) "Metric" [] (rows sample_gaps) = Some metric_rows /\
       dict_get metric metric_rows = None /\
       Forall (fun chart => output_file chart <> path_join "/sim" (graph_file_name metric))
              (saved (trace (create_graphs_from_row_structure sample_pyplot "/sim"
                               sample_gaps)))) /\
  (Forall (fun row => has_values (columns sample_gaps) row = false) (rows sample_gaps) ->
   create_graphs_from_row_structure sample_pyplot "/sim" sample_gaps = ([], Done false)).
Proof.
  apply (empty_series_populates_nothing sample_pyplot "/sim" sample_gaps "Metric"
           ["Config1"; "Config2"; "Config3"]).
  reflexivity.
Defined.

(** A record whose only cell after the first is a whole number beyond the
    floats: nothing is charted and the guidance is printed. *)
Example overflowing_record_populates_nothing :
  create_graphs_from_row_structure sample_pyplot "/sim"
    {| columns := ["Metric"; "Config1"]; rows := [[CStr "Delay"; CInt (10 ^ 400)]] |}
  = ([], Done false).
Proof. vm_compute. reflexivity. Qed.

(** The sample with gaps: the "Energy" record has no number, so only "Delay"
    is charted, from the two cells that are numbers. *)
Example sample_gaps_charts :
  names_metric ["energy"; "power"] [CStr "Energy"; CStr "low"; CStr "high"; CStr "-"] = true /\
  map output_file (saved (trace (main sample_pyplot "/sim" sample_gaps)))
    = ["/sim/delay_graph.png"] /\
  map texts (saved (trace (main sample_pyplot "/sim" sample_gaps))) = [["50.00"; "52.50"]].
Proof. vm_compute. repeat split. Qed.

(** ** The whole run *)

Lemma fallback_false (plt : Pyplot) (root : string) (data : DataFrame) :
  ending (create_graphs_from_row_structure plt root data) = Done false ->
  create_graphs_from_row_structure plt root data = ([], Done false).
Proof.
  destruct (columns data) as [|first_col rest] eqn:Hc.
  - unfold create_graphs_from_row_structure. rewrite Hc. discriminate.
  - intros H. destruct (fallback_cases plt root data first_col rest Hc) as (_ & _ & Hfalse).
    apply Hfalse in H. rewrite (fallback_eq plt root data first_col rest Hc). cbv zeta.
    now rewrite H.
Qed.

(** C6: when the file is found and loaded, no column is classified and the
    row-based fallback returns [False], the run saves no chart, prints the
    format guidance with the two expected shapes (the header and a record of
    the column-based one, the header and two records of the row-based one),
    and ends with status 0.  The printed lines are spelled out. *)
Theorem unrecognized_format (env : Env) (file : string) (data : DataFrame) :
  csv_file (path_exists env) (possible_locations (project_root env)) = Some file ->
  read_csv env file = Loaded data ->
  no_metric_column data ->
  ending (create_graphs_from_row_structure (pyplot env) (project_root env) data)
    = Done false ->
  saved (trace (script env)) = [] /\
  printed (trace (script env)) =
    [ ("Reading data from: " ++ file)%string;
      "CSV file loaded successfully!";
      "
First few rows:";
      "
==================================================";
      "Creating Visualization Graphs";
      "==================================================
";
      "Trying row-based CSV structure
";
      "
Could not automatically detect metric columns.";
      "Please check your CSV structure.";
      "
Expected format:";
      "Option 1 - Column-based:";
      "  Configuration, Execution Time, Delay, Energy, Network Usage";
      "  Config1, 100, 50, 200, 1000";
      "
Option 2 - Row-based:";
      "  Metric, Config1, Config2, Config3";
      "  Execution Time, 100, 120, 110";
      "  Delay, 50, 55, 52";
      "
==================================================";
      "Visualization Complete!";
      "==================================================" ] /\
  ending (script env) = Done tt /\
  exit_status (ending (script env)) = 0%Z.
Proof.
  intros Hfile Hread (He & Hd & Hn & Hw) Hrows.
  apply fallback_false in Hrows.
  unfold script. rewrite Hfile. unfold load_and_plot. rewrite Hread.
  unfold main. cbv zeta. rewrite He, Hd, Hn, Hw, Hrows.
  repeat split.
Qed.

Lemma unrecognized_format_witness :
  saved (trace (script (sample_env ["/sim/output/results.csv"] sample_unknown))) = [] /\
  printed (trace (script (sample_env ["/sim/output/results.csv"] sample_unknown))) =
    [ "Reading data from: /sim/output/results.csv";
      "CSV file loaded successfully!";
      "
First few rows:";
      "
==================================================";
      "Creating Visualization Graphs";
      "==================================================
";
      "Trying row-based CSV structure
";
      "
Could not automatically detect metric columns.";
      "Please check your CSV structure.";
      "
Expected format:";
      "Option 1 - Column-based:";
      "  Configuration, Execution Time, Delay, Energy, Network Usage";
      "  Config1, 100, 50, 200, 1000";
      "
Option 2 - Row-based:";
      "  Metric, Config1, Config2, Config3";
      "  Execution Time, 100, 120, 110";
      "  Delay, 50, 55, 52";
      "
==================================================";
      "Visualization Complete!";
      "==================================================" ] /\
  ending (script (sample_env ["/sim/output/results.csv"] sample_unknown)) = Done tt /\
  exit_status (ending (script (sample_env ["/sim/output/results.csv"] sample_unknown))) = 0%Z.
Proof.
  apply (unrecognized_format (sample_env ["/sim/output/results.csv"] sample_unknown)
           "/sim/output/results.csv" sample_unknown).
  - reflexivity.
  - reflexivity.
  - repeat split.
  - reflexivity.
Defined.

(** *** Output files *)

Ltac saved_steps :=
  repeat first
    [ apply saved_bind_Forall; [|intros ?]
    | apply saved_when_Forall
    | apply Forall_nil ].

Lemma fallback_saved (plt : Pyplot) (root : string) (data : DataFrame) :
  Forall (fun c => exists metric,
            In (metric, ylabel c, color c) metric_styles /\
            output_file c = path_join root (graph_file_name metric))
         (saved (trace (create_graphs_from_row_structure plt root data))).
Proof.
  destruct (columns data) as [|first_col rest] eqn:Hc.
  - unfold create_graphs_from_row_structure. rewrite Hc. constructor.
  - destruct (fallback_cases plt root data first_col rest Hc) as ([n Hn] & _).
    pose proof (scan_fold_keys (columns data) (rows data) [] (Forall_nil _)) as Hk.
    rewrite Hn. apply Forall_firstn.
    apply Forall_map. apply Forall_map in Hk.
    eapply Forall_impl; [|exact Hk].
    intros [metric values] Hm. exists metric. split; [|reflexivity].
    cbn [fst map metric_keywords In] in Hm.
    destruct Hm as [<- | [<- | [<- | [<- | []]]]]; simpl; tauto.
Qed.

(** C4 (as the code has it): every chart a run saves is the chart of one of
    the four metrics and goes to the file named after the display name of
    that metric, spaces replaced by underscores, lower-cased, with
    [_graph.png] after it, under the project root; for the four metrics these
    names are [execution_time_graph.png], [delay_graph.png],
    [energy_graph.png] and [network_usage_graph.png]. *)
Theorem chart_file_names (env : Env) :
  Forall (fun c => exists metric,
            In (metric, ylabel c, color c) metric_styles /\
            output_file c =
              path_join (project_root env)
                (PyStr.lower (PyStr.replace_char " " "_" metric) ++ "_graph.png"))
         (saved (trace (script env))) /\
  map (fun style => graph_file_name (fst (fst style))) metric_styles
    = ["execution_time_graph.png"; "delay_graph.png"; "energy_graph.png";
       "network_usage_graph.png"].
Proof.
  split; [|reflexivity].
  unfold script.
  destruct (csv_file (path_exists env) (possible_locations (project_root env))) as [file|].
  - unfold load_and_plot. apply saved_bind_Forall; [constructor | intros _].
    destruct (read_csv env file) as [data | e]; [|saved_steps].
    unfold main. cbv zeta. saved_steps.
    match goal with |- context [if ?b then _ else _] => destruct b end; saved_steps;
      try (eapply Forall_impl; [|apply create_bar_graph_saved];
           cbv beta; intros c (Hfile & -> & ->); eexists; split; [|exact Hfile];
           simpl; tauto).
    apply fallback_saved.
  - apply saved_bind_Forall; [|intros _; constructor].
    rewrite print_all_eq. cbn [trace fst]. rewrite saved_prints. constructor.
Qed.

(** C4, as stated, fails: the chart of the energy metric goes to
    [energy_graph.png]; no run writes [energy_consumption_graph.png]. *)
Lemma energy_chart_file_name :
  map output_file
      (saved (trace (script (sample_env ["/sim/results.csv"] sample_columns))))
    = [ "/sim/execution_time_graph.png"; "/sim/delay_graph.png";
        "/sim/energy_graph.png"; "/sim/network_usage_graph.png" ] /\
  map output_file
      (saved (trace (script (sample_env ["/sim/results.csv"] sample_rows))))
    = [ "/sim/execution_time_graph.png"; "/sim/delay_graph.png" ] /\
  existsb (String.eqb "/sim/energy_consumption_graph.png")
          (map output_file
             (saved (trace (script (sample_env ["/sim/results.csv"] sample_columns)))))
    = false.
Proof. vm_compute. repeat split. Qed.

(** *** Keywords of the classification and of the renderer *)

(** C2 fails on the code: the classification at the top looks for
    "execution", "time", "exec" and for "network", "usage", "bandwidth", but
    [create_bar_graph] is called with "execution", "time" and with "network",
    "usage".  A column found through "exec" or "bandwidth" alone is not
    charted: the renderer warns that it cannot find the column, or charts
    a later column that has one of its own two keywords. *)
Theorem third_keyword_column_not_charted :
  find_column (columns sample_exec_time) ["execution"; "time"; "exec"] = Some "Exec" /\
  column_values sample_exec_time "Exec" = Some [CFloat 5.5%float] /\
  map heights (saved (trace (main sample_pyplot "/sim" sample_exec_time))) = [[CInt 1700000000]] /\
  find_column (columns sample_exec_bandwidth) ["execution"; "time"; "exec"] = Some "Exec" /\
  find_column (columns sample_exec_bandwidth) ["network"; "usage"; "bandwidth"]
    = Some "Bandwidth" /\
  saved (trace (main sample_pyplot "/sim" sample_exec_bandwidth)) = [] /\
  printed (trace (main sample_pyplot "/sim" sample_exec_bandwidth)) =
    [ (PyStr.nl ++ PyStr.times "=" 50)%string;
      "Creating Visualization Graphs";
      (PyStr.times "=" 50 ++ PyStr.nl)%string;
      ("Detected column-based CSV structure" ++ PyStr.nl)%string;
      "Warning: Could not find column for Execution Time";
      "Warning: Could not find column for Network Usage";
      (PyStr.nl ++ PyStr.times "=" 50)%string;
      "Visualization Complete!";
      PyStr.times "=" 50 ].
Proof. vm_compute. repeat split. Qed.

(** *** Bar annotations *)

(** C9 fails on the code: the values of a whole-number column are
    [numpy.int64], which is neither [int] nor [float], so their bars carry
    the plain text of the number; two decimals would read "100.00". *)
Theorem whole_number_bar_text :
  map heights (saved (trace (main sample_pyplot "/sim" sample_columns)))
    = [[CInt 100]; [CInt 50]; [CInt 200]; [CInt 1000]] /\
  map texts (saved (trace (main sample_pyplot "/sim" sample_columns)))
    = [["100"]; ["50"]; ["200"]; ["1000"]] /\
  map (fun z => PyFloat.format_2f (PyFloat.of_Z z)) [100; 50; 200; 1000]%Z
    = ["100.00"; "50.00"; "200.00"; "1000.00"].
Proof. vm_compute. repeat split. Qed.

(** A float value is formatted with two decimals, also in the column-based
    renderer. *)
Lemma bar_text_float (x : float) : bar_text (CFloat x) = Some (PyFloat.format_2f x).
Proof. reflexivity. Qed.

Lemma bar_text_other (c : cell) :
  isinstance_int_float c = false -> bar_text c = Some (py_str c).
Proof. unfold bar_text. now intros ->. Qed.

Example bar_text_samples :
  map bar_text [CFloat 100%float; CFloat 0.125%float; CFloat 0.375%float;
                CFloat (-0.001953125)%float; CFloat PyFloat.nan; CInt 100;
                CStr "n.a."; CBool true; CInt (2 ^ 64); CInt (10 ^ 400)]
  = [Some "100.00"; Some "0.12"; Some "0.38"; Some "-0.00"; Some "nan"; Some "100";
     Some "n.a."; Some "True"; Some "18446744073709551616.00"; None].
Proof. vm_compute. reflexivity. Qed.

(** What the plotting library refuses stops the run: on a text column with a
    missing value [plt.bar] raises, nothing is saved, the banner at the end
    is not printed and the status is 1. *)
Example refused_bars_stop_the_run :
  main sample_pyplot "/sim" sample_text_gap =
  ( [ Print "
==================================================";
      Print "Creating Visualization Graphs";
      Print "==================================================
";
      Print "Detected column-based CSV structure
" ],
    Raised "TypeError" ) /\
  exit_status (ending (script (sample_env ["/sim/results.csv"] sample_text_gap))) = 1%Z.
Proof. vm_compute. repeat split. Qed.

(** ** The samples of the specification *)

Example find_column_samples :
  find_column ["Config"; "Network Delay"; "Delay"] ["delay"] = Some "Network Delay" /\
  find_column ["Config"; "EXECUTION time"] ["Exec"] = Some "EXECUTION time" /\
  find_column ["Config"; "Latency"] ["delay"] = None /\
  find_column [] ["delay"] = None.
Proof. repeat split. Qed.

(** The row-based sample: one chart per record, labelled by position. *)
Example sample_rows_charts :
  map output_file (saved (trace (main sample_pyplot "/sim" sample_rows)))
    = ["/sim/execution_time_graph.png"; "/sim/delay_graph.png"] /\
  map texts (saved (trace (main sample_pyplot "/sim" sample_rows)))
    = [["100.00"; "120.00"; "110.00"]; ["50.00"; "55.00"; "52.00"]] /\
  map ticks (saved (trace (main sample_pyplot "/sim" sample_rows)))
    = [ [CStr "Config 1"; CStr "Config 2"; CStr "Config 3"];
        [CStr "Config 1"; CStr "Config 2"; CStr "Config 3"] ] /\
  ending (main sample_pyplot "/sim" sample_rows) = Done tt.
Proof. vm_compute. repeat split. Qed.

(** The column-based sample: four charts, each with the one bar "Config1". *)
Example sample_columns_charts :
  map output_file (saved (trace (main sample_pyplot "/sim" sample_columns)))
    = [ "/sim/execution_time_graph.png"; "/sim/delay_graph.png";
        "/sim/energy_graph.png"; "/sim/network_usage_graph.png" ] /\
  map ticks (saved (trace (main sample_pyplot "/sim" sample_columns)))
    = [[CStr "Config1"]; [CStr "Config1"]; [CStr "Config1"]; [CStr "Config1"]].
Proof. vm_compute. repeat split. Qed.

(** The metric column comes first: the labels are made up by position. *)
Example sample_metric_first_charts :
  map ticks (saved (trace (main sample_pyplot "/sim" sample_metric_first)))
    = [[CStr "Config 1"; CStr "Config 2"]; [CInt 5; CInt 6]] /\
  map heights (saved (trace (main sample_pyplot "/sim" sample_metric_first)))
    = [[CInt 5; CInt 6]; [CInt 7; CInt 8]].
Proof. vm_compute. repeat split. Qed.

(** No file at any of the three locations. *)
Example missing_file_run :
  script (sample_env [] sample_columns) =
  ( map Print
      [ PyStr.times "=" 60;
        "ERROR: results.csv not found!";
        PyStr.times "=" 60;
        (PyStr.nl ++ "Searched in the following locations:")%string;
        "  - /sim/results.csv";
        "  - /sim/output/results.csv";
        "  - /sim/results/results.csv";
        (PyStr.nl ++ "Please ensure results.csv exists in one of these locations.")%string;
        "The Java simulation should generate this file after running.";
        PyStr.times "=" 60 ],
    Exit 1 ).
Proof. vm_compute. reflexivity. Qed.

(** ** Truth value of a classified column *)

Lemma lower_empty (s : string) : PyStr.lower s = EmptyString -> s = EmptyString.
Proof. destruct s; [reflexivity | discriminate]. Qed.

(** The script tests what [find_column] returned by its truth value.  With
    keywords that are not empty a column that matches has a name that is not
    empty, so the test is the test against [None]. *)
Lemma found_iff_some (cols keywords : list string) :
  Forall (fun k => k <> EmptyString) keywords ->
  (found (find_column cols keywords) = true <-> find_column cols keywords <> None).
Proof.
  intros Hk. destruct (find_column cols keywords) as [col|] eqn:H; simpl.
  - split; [discriminate | intros _].
    destruct (find_column_some _ _ _ H) as (_ & _ & _ & Hm & _).
    apply column_matches_spec in Hm. destruct Hm as (k & Hin & before & after & E).
    destruct col as [|c col]; [|reflexivity].
    exfalso. rewrite Forall_forall in Hk. apply (Hk k Hin).
    apply lower_empty. simpl in E.
    destruct before; [|discriminate].
    destruct (PyStr.lower k); [reflexivity | discriminate].
  - split; [discriminate | congruence].
Qed.

(** * Further properties of the script *)

(** ** Column classifier: what the answer depends on *)

Lemma column_matches_keyword_set (k1 k2 : list string) (col : string) :
  (forall k, In k k1 <-> In k k2) ->
  column_matches k1 col = column_matches k2 col.
Proof.
  intros H. apply eq_true_iff_eq. unfold column_matches.
  rewrite !existsb_exists. split; intros [k [Hin Hk]]; exists k; (split; [|exact Hk]);
    now apply H.
Qed.

(** X1: the answer of [find_column] depends on the keywords as a set: their
    order and repetitions do not matter (the order of the columns does). *)
Theorem find_column_keyword_set (cols k1 k2 : list string) :
  (forall k, In k k1 <-> In k k2) ->
  find_column cols k1 = find_column cols k2.
Proof.
  intros H. induction cols as [|c cols IH]; [reflexivity|].
  cbn [find_column]. rewrite (column_matches_keyword_set k1 k2 c H).
  destruct (column_matches k2 c); [reflexivity | exact IH].
Qed.

Lemma find_column_keyword_set_witness :
  find_column ["Config"; "Power (W)"; "Energy (J)"] ["energy"; "power"]
  = find_column ["Config"; "Power (W)"; "Energy (J)"] ["power"; "energy"; "power"].
Proof.
  apply (find_column_keyword_set ["Config"; "Power (W)"; "Energy (J)"]
           ["energy"; "power"] ["power"; "energy"; "power"]).
  intros k. simpl. tauto.
Defined.

Lemma lower_ascii_idem (c : ascii) :
  PyStr.lower_ascii (PyStr.lower_ascii c) = PyStr.lower_ascii c.
Proof. destruct c as [[] [] [] [] [] [] [] []]; reflexivity. Qed.

Lemma lower_idem (s : string) : PyStr.lower (PyStr.lower s) = PyStr.lower s.
Proof.
  induction s as [|c s IH]; [reflexivity|].
  cbn [PyStr.lower]. now rewrite lower_ascii_idem, IH.
Qed.

Lemma column_matches_lowered (keywords : list string) (col : string) :
  column_matches keywords col
  = existsb (fun k => PyStr.contains k (PyStr.lower col)) (map PyStr.lower keywords).
Proof.
  unfold column_matches. induction keywords as [|k keywords IH]; [reflexivity|].
  cbn [existsb map]. now rewrite IH.
Qed.

(** X2: the match is blind to case on both sides: keyword lists that agree
    up to case give the same answer, and on lower-cased column names the
    answer is the lower-cased name of the same column. *)
Theorem find_column_case_blind (cols k1 k2 : list string) :
  map PyStr.lower k1 = map PyStr.lower k2 ->
  find_column cols k1 = find_column cols k2 /\
  find_column (map PyStr.lower cols) k1 = option_map PyStr.lower (find_column cols k2).
Proof.
  intros H.
  assert (Hm : forall c, column_matches k1 c = column_matches k2 c).
  { intros c. now rewrite !column_matches_lowered, H. }
  assert (Hl : forall c, column_matches k1 (PyStr.lower c) = column_matches k2 c).
  { intros c. rewrite <- Hm. unfold column_matches. now rewrite lower_idem. }
  split; induction cols as [|c cols IH]; try reflexivity; cbn [find_column map].
  - rewrite Hm. destruct (column_matches k2 c); [reflexivity | exact IH].
  - rewrite Hl. destruct (column_matches k2 c); [reflexivity | exact IH].
Qed.

Lemma find_column_case_blind_witness :
  find_column ["Config"; "DELAY (ms)"] ["Delay"]
    = find_column ["Config"; "DELAY (ms)"] ["dELAY"] /\
  find_column (map PyStr.lower ["Config"; "DELAY (ms)"]) ["Delay"]
    = option_map PyStr.lower (find_column ["Config"; "DELAY (ms)"] ["dELAY"]).
Proof.
  apply (find_column_case_blind ["Config"; "DELAY (ms)"] ["Delay"] ["dELAY"]).
  reflexivity.
Defined.

(** X3: [find_column] answers with one of the columns it was given, and on
    two lists of columns put end to end it answers from the first list when
    that has a match and from the second list otherwise. *)
Theorem find_column_append (cols1 cols2 keywords : list string) :
  find_column (cols1 ++ cols2) keywords =
    match find_column cols1 keywords with
    | Some col => Some col
    | None => find_column cols2 keywords
    end /\
  match find_column (cols1 ++ cols2) keywords with
  | Some col => In col cols1 \/ In col cols2
  | None => True
  end.
Proof.
  assert (E : find_column (cols1 ++ cols2) keywords =
              match find_column cols1 keywords with
              | Some col => Some col
              | None => find_column cols2 keywords
              end).
  { induction cols1 as [|c cols1 IH]; [reflexivity|].
    cbn [app find_column]. destruct (column_matches keywords c); [reflexivity | exact IH]. }
  split; [exact E|].
  destruct (find_column (cols1 ++ cols2) keywords) as [col|] eqn:H; [|exact I].
  apply in_app_or. now apply (find_column_in _ keywords).
Qed.

Lemma contains_empty (s : string) : PyStr.contains EmptyString s = true.
Proof. destruct s; reflexivity. Qed.

(** X4: the edges of the classifier: without keywords, or without columns,
    the answer is [None]; an empty keyword occurs in every name, so with one
    among the keywords the answer is the first column whatever it is called. *)
Theorem find_column_edges (cols keywords : list string) :
  find_column cols [] = None /\
  find_column [] keywords = None /\
  (In EmptyString keywords ->
   forall first rest, find_column (first :: rest) keywords = Some first).
Proof.
  repeat apply conj.
  - induction cols as [|c cols IH]; [reflexivity | exact IH].
  - reflexivity.
  - intros Hin first rest. cbn [find_column].
    assert (E : column_matches keywords first = true); [|now rewrite E].
    unfold column_matches. apply existsb_exists. exists EmptyString.
    split; [exact Hin | apply contains_empty].
Qed.

(** ** Chart renderer: what one call does *)

Lemma bar_texts_length (values : list cell) (bar_labels : list string) :
  bar_texts values = Some bar_labels -> List.length bar_labels = List.length values.
Proof.
  revert bar_labels. induction values as [|v values IH]; intros bar_labels.
  - now intros [= <-].
  - cbn [bar_texts]. destruct (bar_text v); [|discriminate].
    destruct (bar_texts values) as [l|]; [|discriminate].
    intros [= <-]. cbn [List.length]. now rewrite (IH l).
Qed.

(** X5: what one call of [create_bar_graph] does.  Without a column for its
    keywords it prints the warning and saves nothing.  With one, it raises
    what [plt.bar] raises on the column's values, else [OverflowError] when
    a bar text cannot be formatted, else what [plt.savefig] raises, and in
    these cases it saves and prints nothing; otherwise it returns, having
    saved one chart whose bars are the values of the column, one for each
    record. *)
Theorem create_bar_graph_outcomes (plt : Pyplot) (root : string) (data : DataFrame)
    (metric_name : string) (keywords : list string) (yl t col : string) :
  match find_column (columns data) keywords with
  | None =>
      ending (create_bar_graph plt root data metric_name keywords yl t col) = Done tt /\
      saved (trace (create_bar_graph plt root data metric_name keywords yl t col)) = [] /\
      printed (trace (create_bar_graph plt root data metric_name keywords yl t col))
        = [("Warning: Could not find column for " ++ metric_name)%string]
  | Some metric_col =>
      exists values,
        column_values data metric_col = Some values /\
        List.length values = List.length (rows data) /\
        match plt_bar plt values with
        | Some exn =>
            create_bar_graph plt root data metric_name keywords yl t col
            = ([], Raised exn)
        | None =>
            match bar_texts values with
            | None =>
                create_bar_graph plt root data metric_name keywords yl t col
                = ([], Raised "OverflowError")
            | Some bar_labels =>
                match plt_savefig plt (path_join root (graph_file_name metric_name)) with
                | Some exn =>
                    create_bar_graph plt root data metric_name keywords yl t col
                    = ([], Raised exn)
                | None =>
                    ending (create_bar_graph plt root data metric_name keywords yl t col)
                      = Done tt /\
                    exists chart,
                      saved (trace (create_bar_graph plt root data metric_name
                                      keywords yl t col)) = [chart] /\
                      heights chart = values /\
                      texts chart = bar_labels /\
                      output_file chart = path_join root (graph_file_name metric_name)
                end
            end
        end
  end.
Proof.
  destruct (find_column (columns data) keywords) as [metric_col|] eqn:Hf.
  - destruct (create_bar_graph_found plt root data metric_name keywords yl t col
                metric_col Hf) as (values & labels & Hv & -> & _).
    exists values. split; [exact Hv|]. split; [now apply column_values_length with metric_col|].
    destruct (plt_bar plt values); [reflexivity|].
    destruct (bar_texts values) as [bar_labels|]; [|reflexivity].
    destruct (plt_savefig plt _); [reflexivity|].
    split; [reflexivity|].
    exists (bar_chart root metric_name yl t col values bar_labels labels). repeat split.
  - rewrite (create_bar_graph_not_found _ _ _ _ _ _ _ _ Hf). repeat split.
Qed.

(** ** A property of every chart of a run *)

(** What holds of the charts of every [create_bar_graph] call and of the
    charts of the fallback holds of all charts of a run. *)
Lemma script_saved_Forall (P : Chart -> Prop) (env : Env) :
  (forall data metric_name keywords yl t col,
     Forall P (saved (trace (create_bar_graph (pyplot env) (project_root env) data
                               metric_name keywords yl t col)))) ->
  (forall data,
     Forall P (saved (trace (create_graphs_from_row_structure (pyplot env)
                               (project_root env) data)))) ->
  Forall P (saved (trace (script env))).
Proof.
  intros Hbar Hrow. unfold script.
  destruct (csv_file (path_exists env) (possible_locations (project_root env))) as [file|].
  - unfold load_and_plot. apply saved_bind_Forall; [constructor | intros _].
    destruct (read_csv env file) as [data | e]; [|saved_steps].
    unfold main. cbv zeta. saved_steps.
    match goal with |- context [if ?b then _ else _] => destruct b end; saved_steps;
      auto.
  - apply saved_bind_Forall; [|intros _; constructor].
    rewrite print_all_eq. cbn [trace fst]. rewrite saved_prints. constructor.
Qed.

Lemma config_labels_length (n : nat) : List.length (config_labels n) = n.
Proof. unfold config_labels. now rewrite length_map, length_seq. Qed.

(** The charts of the fallback are among those of [metric_rows]. *)
Lemma fallback_saved_Forall (P : Chart -> Prop) (plt : Pyplot) (root : string)
    (data : DataFrame) :
  (forall first_col rest,
     columns data = first_col :: rest ->
     Forall (fun item => P (row_chart root (fst item) (snd item)))
            (fold_left (scan_step (columns data)) (rows data) [])) ->
  Forall P (saved (trace (create_graphs_from_row_structure plt root data))).
Proof.
  intros H. destruct (columns data) as [|first_col rest] eqn:Hc.
  - unfold create_graphs_from_row_structure. rewrite Hc. constructor.
  - destruct (fallback_cases plt root data first_col rest Hc) as ([n Hn] & _).
    rewrite Hn. apply Forall_firstn. apply Forall_map. rewrite <- Hc in H. now apply (H first_col rest).
Qed.

(** X6: in every chart a run saves, the bars, the texts above them and the
    category labels are as many. *)
Theorem bars_texts_ticks_aligned (env : Env) :
  Forall (fun c => List.length (texts c) = List.length (heights c) /\
                   List.length (ticks c) = List.length (heights c))
         (saved (trace (script env))).
Proof.
  apply script_saved_Forall.
  - intros data metric_name keywords yl t col.
    apply create_bar_graph_saved_Forall.
    intros metric_col values bar_labels labels Hf Hv Ht Hl.
    cbn [texts heights ticks bar_chart].
    split; [now apply bar_texts_length|].
    destruct (columns data) as [|first_col rest]; [contradiction|].
    destruct (String.eqb first_col metric_col).
    + subst labels. apply config_labels_length.
    + rewrite (column_values_length _ _ _ Hl). symmetry.
      now apply column_values_length with metric_col.
  - intros data. apply fallback_saved_Forall. intros first_col rest _.
    apply Forall_forall. intros [metric values] _.
    cbn [texts heights ticks row_chart fst snd].
    now rewrite !length_map, config_labels_length.
Qed.

(** ** How a run ends *)

Lemma ends_well_bind {A B} (plt : Pyplot) (m : Run A) (k : A -> Run B) :
  ends_well plt m -> (forall a, ends_well plt (k a)) -> ends_well plt (bind m k).
Proof.
  unfold ends_well. rewrite ending_bind.
  destruct (ending m); [intros _ H; apply H | contradiction | auto].
Qed.

Lemma ends_well_when (plt : Pyplot) (b : bool) (m : Run unit) :
  ends_well plt m -> ends_well plt (when b m).
Proof. destruct b; [auto | intros _; exact I]. Qed.

Lemma ends_well_bar_graph (plt : Pyplot) (root : string) (data : DataFrame)
    (metric_name : string) (keywords : list string) (yl t col : string) :
  ends_well plt (create_bar_graph plt root data metric_name keywords yl t col).
Proof.
  unfold ends_well.
  destruct (find_column (columns data) keywords) as [metric_col|] eqn:Hf.
  - destruct (create_bar_graph_found plt root data metric_name keywords yl t col
                metric_col Hf) as (values & labels & _ & -> & _).
    destruct (plt_bar plt values) as [exn|] eqn:Hb; [left; eauto|].
    destruct (bar_texts values); [|right; right; reflexivity].
    destruct (plt_savefig plt _) as [exn|] eqn:Hs; [right; left; eauto | exact I].
  - now rewrite (create_bar_graph_not_found _ _ _ _ _ _ _ _ Hf).
Qed.

Lemma ends_well_fallback (plt : Pyplot) (root : string) (data : DataFrame)
    (first_col : string) (rest : list string) :
  columns data = first_col :: rest ->
  ends_well plt (create_graphs_from_row_structure plt root data).
Proof.
  intros Hc. unfold ends_well.
  rewrite (fallback_eq plt root data first_col rest Hc). cbv zeta.
  destruct (fold_left _ _ _) as [|item items]; [exact I|].
  rewrite ending_bind.
  destruct (draw_rows_ending plt root (item :: items)) as [-> | (exn & -> & [H | H])].
  - exact I.
  - now left.
  - right. now left.
Qed.

Ltac ends_well_steps :=
  repeat first
    [ apply ends_well_bind; [|intros ?]
    | apply ends_well_when
    | apply ends_well_bar_graph
    | exact I ].

Lemma main_ends_well (plt : Pyplot) (root : string) (data : DataFrame)
    (first_col : string) (rest : list string) :
  columns data = first_col :: rest -> ends_well plt (main plt root data).
Proof.
  intros Hc. unfold main. cbv zeta. ends_well_steps.
  match goal with |- context [if ?b then _ else _] => destruct b end; ends_well_steps.
  now apply ends_well_fallback with first_col rest.
Qed.

(** The main part seen from its two-way branch: the three lines before it,
    the branch, and the banner when the branch returns. *)
Lemma main_shape (plt : Pyplot) (root : string) (data : DataFrame) :
  main plt root data =
  ( [ Print (PyStr.nl ++ PyStr.times "=" 50);
      Print "Creating Visualization Graphs";
      Print (PyStr.times "=" 50 ++ PyStr.nl) ]
    ++ trace (main_branch plt root data)
    ++ match ending (main_branch plt root data) with
       | Done _ => [ Print (PyStr.nl ++ PyStr.times "=" 50);
                     Print "Visualization Complete!";
                     Print (PyStr.times "=" 50) ]
       | _ => []
       end,
    ending (main_branch plt root data) ).
Proof.
  unfold main, main_branch, column_based. cbv zeta.
  match goal with
  | |- context [bind (if ?b then ?x else ?y)] => generalize (if b then x else y)
  end.
  intros [t [[] | code | exn]]; cbn [bind print emit trace ending fst snd app];
    now rewrite ?app_nil_r.
Qed.

Lemma no_banner_app (t1 t2 : list Event) :
  no_banner t1 -> no_banner t2 -> no_banner (t1 ++ t2).
Proof. unfold no_banner. rewrite printed_app. intros. now apply Forall_app. Qed.

Lemma no_banner_bind {A B} (m : Run A) (k : A -> Run B) :
  no_banner (trace m) -> (forall a, no_banner (trace (k a))) ->
  no_banner (trace (bind m k)).
Proof.
  intros Hm Hk. rewrite trace_bind. apply no_banner_app; [exact Hm|].
  destruct (ending m); [apply Hk | constructor | constructor].
Qed.

Lemma no_banner_when (b : bool) (m : Run unit) :
  no_banner (trace m) -> no_banner (trace (when b m)).
Proof. destruct b; [auto | constructor]. Qed.

Lemma no_banner_bar_graph (plt : Pyplot) (root : string) (data : DataFrame)
    (metric_name : string) (keywords : list string) (yl t col : string) :
  no_banner (trace (create_bar_graph plt root data metric_name keywords yl t col)).
Proof.
  destruct (find_column (columns data) keywords) as [metric_col|] eqn:Hf.
  - destruct (create_bar_graph_found plt root data metric_name keywords yl t col
                metric_col Hf) as (values & labels & _ & -> & _).
    destruct (plt_bar plt values); [constructor|].
    destruct (bar_texts values); [|constructor].
    destruct (plt_savefig plt _); repeat constructor. discriminate.
  - rewrite (create_bar_graph_not_found _ _ _ _ _ _ _ _ Hf).
    repeat constructor. discriminate.
Qed.

Lemma no_banner_draw_rows (plt : Pyplot) (root : string) (items : dict (list float)) :
  no_banner (trace (draw_rows plt root items)).
Proof.
  induction items as [|[metric values] items IH]; [constructor|].
  rewrite draw_rows_cons.
  destruct (plt_bar plt _); [constructor|].
  destruct (plt_savefig plt _); [constructor|].
  cbn [trace fst]. apply no_banner_app; [|exact IH].
  repeat constructor. discriminate.
Qed.

Lemma no_banner_fallback (plt : Pyplot) (root : string) (data : DataFrame) :
  no_banner (trace (create_graphs_from_row_structure plt root data)).
Proof.
  destruct (columns data) as [|first_col rest] eqn:Hc.
  - unfold create_graphs_from_row_structure. rewrite Hc. constructor.
  - rewrite (fallback_eq plt root data first_col rest Hc). cbv zeta.
    destruct (fold_left _ _ _) as [|item items]; [constructor|].
    apply no_banner_bind; [apply no_banner_draw_rows | intros _; constructor].
Qed.

Ltac no_banner_steps :=
  repeat first
    [ apply no_banner_bind; [|intros ?]
    | apply no_banner_when
    | apply no_banner_bar_graph
    | apply no_banner_fallback
    | apply Forall_nil ].

Lemma no_banner_branch (plt : Pyplot) (root : string) (data : DataFrame) :
  no_banner (trace (main_branch plt root data)).
Proof.
  unfold main_branch. destruct (column_based data); no_banner_steps.
  all: unfold no_banner; rewrite ?print_all_eq; cbn [trace fst print emit printed];
    rewrite ?printed_prints; repeat constructor; discriminate.
Qed.

(** X7: on a table with at least one column the main part neither calls
    [exit] nor raises anything but what a drawing step raises ([plt.bar],
    [plt.savefig], the format of a bar text).  When it returns, the last
    lines printed are the banner with "Visualization Complete!"; when a
    drawing step raises, that line is not printed at all. *)
Theorem main_outcomes (plt : Pyplot) (root : string) (data : DataFrame)
    (first_col : string) (rest : list string) :
  columns data = first_col :: rest ->
  match ending (main plt root data) with
  | Done _ =>
      exists before,
        printed (trace (main plt root data))
        = before ++ [ "
==================================================";
               "Visualization Complete!";
               "==================================================" ]
  | Exit _ => False
  | Raised exn =>
      drawing_error plt exn /\
      ~ In "Visualization Complete!" (printed (trace (main plt root data)))
  end.
Proof.
  intros Hc. pose proof (main_ends_well plt root data first_col rest Hc) as Hw.
  unfold ends_well in Hw.
  pose proof (no_banner_branch plt root data) as Hn.
  rewrite main_shape in *. cbn [ending snd trace fst] in *.
  set (branch := main_branch plt root data) in *.
  destruct (ending branch) as [[] | code | exn].
  - exists ([ (PyStr.nl ++ PyStr.times "=" 50)%string;
              "Creating Visualization Graphs";
              (PyStr.times "=" 50 ++ PyStr.nl)%string ] ++ printed (trace branch)).
    cbn [app printed]. rewrite printed_app. reflexivity.
  - exact Hw.
  - split; [exact Hw|]. cbn [app printed]. rewrite app_nil_r.
    unfold no_banner in Hn. rewrite Forall_forall in Hn.
    intros [H | [H | [H | H]]]; try discriminate H. now apply (Hn _ H).
Qed.

Lemma main_outcomes_witness :
  match ending (main sample_pyplot "/sim" sample_text_gap) with
  | Done _ =>
      exists before,
        printed (trace (main sample_pyplot "/sim" sample_text_gap))
        = before ++ [ "
==================================================";
               "Visualization Complete!";
               "==================================================" ]
  | Exit _ => False
  | Raised exn =>
      drawing_error sample_pyplot exn /\
      ~ In "Visualization Complete!"
           (printed (trace (main sample_pyplot "/sim" sample_text_gap)))
  end.
Proof.
  apply (main_outcomes sample_pyplot "/sim" sample_text_gap "Config" ["Delay"]).
  reflexivity.
Defined.

(** X8: when the file is found and [pd.read_csv] raises, the run prints the
    file it read and the error, saves nothing and exits with status 1. *)
Theorem load_error_exits (env : Env) (file e : string) :
  csv_file (path_exists env) (possible_locations (project_root env)) = Some file ->
  read_csv env file = LoadError e ->
  script env =
    ( [ Print ("Reading data from: " ++ file); Print ("Error reading CSV file: " ++ e) ],
      Exit 1 ) /\
  saved (trace (script env)) = [] /\
  exit_status (ending (script env)) = 1%Z.
Proof.
  intros Hfile Hread.
  assert (E : script env =
              ( [ Print ("Reading data from: " ++ file);
                  Print ("Error reading CSV file: " ++ e) ], Exit 1 )).
  { unfold script. rewrite Hfile. unfold load_and_plot. now rewrite Hread. }
  rewrite E. repeat split.
Qed.

Lemma load_error_exits_witness :
  script (failing_env "No columns to parse from file") =
    ( [ Print ("Reading data from: " ++ "/sim/results/results.csv");
        Print ("Error reading CSV file: " ++ "No columns to parse from file") ],
      Exit 1 ) /\
  saved (trace (script (failing_env "No columns to parse from file"))) = [] /\
  exit_status (ending (script (failing_env "No columns to parse from file"))) = 1%Z.
Proof.
  apply (load_error_exits (failing_env "No columns to parse from file")
           "/sim/results/results.csv" "No columns to parse from file");
    reflexivity.
Defined.

(** ** The charts of the column-based path *)

Lemma main_saved (plt : Pyplot) (root : string) (data : DataFrame) :
  saved (trace (main plt root data)) = saved (trace (main_branch plt root data)).
Proof.
  rewrite main_shape. cbn [trace fst app saved]. rewrite saved_app.
  destruct (ending (main_branch plt root data)); cbn [saved]; apply app_nil_r.
Qed.

Lemma main_ending (plt : Pyplot) (root : string) (data : DataFrame) :
  ending (main plt root data) = ending (main_branch plt root data).
Proof. now rewrite main_shape. Qed.

Lemma main_branch_column (plt : Pyplot) (root : string) (data : DataFrame) :
  column_based data = true ->
  main_branch plt root data =
  bind (print ("Detected column-based CSV structure" ++ PyStr.nl))
    (fun _ => sequence (map snd (column_calls plt root data))).
Proof. intros H. unfold main_branch. now rewrite H. Qed.

Lemma main_branch_rows (plt : Pyplot) (root : string) (data : DataFrame) :
  column_based data = false ->
  saved (trace (main_branch plt root data))
  = saved (trace (create_graphs_from_row_structure plt root data)).
Proof.
  intros H. unfold main_branch. rewrite H.
  generalize (create_graphs_from_row_structure plt root data).
  intros [t [[] | code | exn]]; cbn [bind print emit trace ending fst snd app saved negb when ret];
    rewrite ?app_nil_r; try reflexivity.
  rewrite print_all_eq. cbn [trace fst saved].
  now rewrite saved_app, saved_prints, app_nil_r.
Qed.

(** The charts of runs one after the other are those of the runs up to the
    first that does not return, that one included. *)
Lemma sequence_saved (ms : list (Run unit)) :
  exists n,
    saved (trace (sequence ms)) = flat_map (fun m => saved (trace m)) (firstn n ms).
Proof.
  induction ms as [|m ms [n IH]]; [now exists O|].
  destruct ms as [|m' ms].
  - exists 1%nat. cbn. now rewrite app_nil_r.
  - change (sequence (m :: m' :: ms)) with (bind m (fun _ => sequence (m' :: ms))).
    rewrite trace_bind, saved_app.
    destruct (ending m).
    + exists (S n). cbn [firstn flat_map]. now rewrite IH.
    + exists 1%nat. cbn [firstn flat_map]. reflexivity.
    + exists 1%nat. cbn [firstn flat_map]. reflexivity.
Qed.

Lemma sequence_done (ms : list (Run unit)) :
  ending (sequence ms) = Done tt ->
  Forall (fun m => ending m = Done tt) ms /\
  saved (trace (sequence ms)) = flat_map (fun m => saved (trace m)) ms.
Proof.
  induction ms as [|m ms IH]; [now split|].
  destruct ms as [|m' ms].
  - cbn [sequence flat_map]. intros H. rewrite app_nil_r. split; [now constructor | reflexivity].
  - change (sequence (m :: m' :: ms)) with (bind m (fun _ => sequence (m' :: ms))).
    rewrite trace_bind, ending_bind, saved_app.
    destruct (ending m) as [[] | code | exn] eqn:E; try discriminate.
    intros H. destruct (IH H) as [Hall Hs]. split; [now constructor|].
    cbn [flat_map]. now rewrite Hs.
Qed.

(** The files of one call of the column-based path. *)
Lemma column_call_files (plt : Pyplot) (root : string) (data : DataFrame) :
  Forall (fun c => files (trace (snd c)) = [] \/
                   files (trace (snd c)) = [path_join root (graph_file_name (fst c))])
         (column_calls plt root data).
Proof.
  assert (H : forall b metric_name keywords yl t col,
             files (trace (when b (create_bar_graph plt root data metric_name
                                     keywords yl t col))) = [] \/
             files (trace (when b (create_bar_graph plt root data metric_name
                                     keywords yl t col)))
             = [path_join root (graph_file_name metric_name)]).
  { intros b metric_name keywords yl t col. unfold files.
    destruct b; [|now left]. cbn [when].
    destruct (find_column (columns data) keywords) as [metric_col|] eqn:Hf.
    - destruct (create_bar_graph_found plt root data metric_name keywords yl t col
                  metric_col Hf) as (values & labels & _ & -> & _).
      destruct (plt_bar plt values); [now left|].
      destruct (bar_texts values); [|now left].
      destruct (plt_savefig plt _); [now left | now right].
    - rewrite (create_bar_graph_not_found _ _ _ _ _ _ _ _ Hf). now left. }
  unfold column_calls. repeat (apply Forall_cons; [apply H|]). apply Forall_nil.
Qed.

(** Calls that each write the file of their own name or nothing write, up
    to any point, the files of a choice of names without repetition. *)
Lemma calls_files (root : string) (calls : list (string * Run unit)) (n : nat) :
  NoDup (map fst calls) ->
  Forall (fun c => files (trace (snd c)) = [] \/
                   files (trace (snd c)) = [path_join root (graph_file_name (fst c))])
         calls ->
  exists names,
    map output_file (flat_map (fun m => saved (trace m)) (firstn n (map snd calls)))
    = map (fun m => path_join root (graph_file_name m)) names /\
    NoDup names /\ incl names (map fst calls).
Proof.
  revert n. induction calls as [|[name m] calls IH]; intros n Hnd Hall.
  - exists []. destruct n; (split; [reflexivity | split; [constructor | intros x []]]).
  - inversion Hnd as [|? ? Hname Hnd']; subst. inversion Hall as [|? ? Hm Hall']; subst.
    destruct n as [|n].
    + exists []. split; [reflexivity | split; [constructor | intros x []]].
    + destruct (IH n Hnd' Hall') as (names & E & Hn & Hi).
      cbn [map firstn flat_map fst snd] in *. rewrite map_app, E.
      unfold files in Hm. destruct Hm as [-> | ->].
      * exists names. split; [reflexivity | split; [exact Hn | now apply incl_tl]].
      * exists (name :: names). split; [reflexivity | split].
        -- constructor; [|exact Hn]. intros Hin. apply Hname. now apply Hi.
        -- intros x [<- | Hx]; [now left | right; now apply Hi].
Qed.

Lemma metric_files_NoDup (root : string) (metrics : list string) :
  NoDup metrics -> incl metrics (map fst metric_keywords) ->
  NoDup (map (fun m => path_join root (graph_file_name m)) metrics) /\
  (List.length metrics <= 4)%nat.
Proof.
  intros Hnd Hincl. split.
  - apply NoDup_map_NoDup_ForallPairs; [|exact Hnd].
    intros a b Ha Hb. apply graph_file_inj; auto.
  - change 4%nat with (List.length (map fst metric_keywords)).
    now apply NoDup_incl_length.
Qed.

(** A call of the column-based path that returns has charted its metric when
    the metric is classified and the call's own search finds a column. *)
Lemma column_call_done (plt : Pyplot) (root : string) (data : DataFrame) (b : bool)
    (metric_name : string) (keywords : list string) (yl t col : string) :
  ending (when b (create_bar_graph plt root data metric_name keywords yl t col)) = Done tt ->
  match find_column (columns data) keywords with
  | Some metric_col =>
      if b then
        exists values bar_labels labels,
          column_values data metric_col = Some values /\
          bar_texts values = Some bar_labels /\
          saved (trace (when b (create_bar_graph plt root data metric_name
                                  keywords yl t col)))
          = [bar_chart root metric_name yl t col values bar_labels labels]
      else saved (trace (when b (create_bar_graph plt root data metric_name
                                   keywords yl t col))) = []
  | None => saved (trace (when b (create_bar_graph plt root data metric_name
                                    keywords yl t col))) = []
  end.
Proof.
  destruct (find_column (columns data) keywords) as [metric_col|] eqn:Hf.
  - destruct b; [|reflexivity]. cbn [when].
    destruct (create_bar_graph_found plt root data metric_name keywords yl t col
                metric_col Hf) as (values & labels & Hv & -> & _).
    destruct (plt_bar plt values); [discriminate|].
    destruct (bar_texts values) as [bar_labels|] eqn:Ht; [|discriminate].
    destruct (plt_savefig plt _); [discriminate|].
    intros _. now exists values, bar_labels, labels.
  - intros _. destruct b; [|reflexivity]. cbn [when].
    now rewrite (create_bar_graph_not_found _ _ _ _ _ _ _ _ Hf).
Qed.

(** X11: when the column-based path goes through, the charts are written in
    the fixed order Execution Time, Delay, Energy, Network Usage, one for
    each metric that is classified at the top and for which the renderer,
    with the keywords of its call, finds a column. *)
Theorem column_path_files (plt : Pyplot) (root : string) (data : DataFrame) :
  column_based data = true ->
  ending (main plt root data) = Done tt ->
  map output_file (saved (trace (main plt root data)))
  = map (fun m => path_join root (graph_file_name (fst (fst m))))
        (filter (column_charted data) column_metrics).
Proof.
  intros Hb Hend. rewrite main_ending, (main_branch_column plt root data Hb) in Hend.
  rewrite main_saved, (main_branch_column plt root data Hb).
  rewrite ending_bind in Hend. cbn [ending snd print emit] in Hend.
  rewrite trace_bind, saved_app. cbn [ending snd print emit trace fst saved app].
  destruct (sequence_done _ Hend) as [Hall ->].
  cbn [column_calls map snd flat_map] in *. rewrite app_nil_r, !map_app.
  inversion Hall as [|? ? H1 Hall1]; subst. inversion Hall1 as [|? ? H2 Hall2]; subst.
  inversion Hall2 as [|? ? H3 Hall3]; subst. inversion Hall3 as [|? ? H4 _]; subst.
  apply column_call_done in H1, H2, H3, H4.
  unfold column_charted. cbn [filter column_metrics fst snd].
  destruct (find_column (columns data) ["execution"; "time"]);
    destruct (found (find_column (columns data) ["execution"; "time"; "exec"]));
    destruct (find_column (columns data) ["delay"]) as [c2|];
    destruct (find_column (columns data) ["energy"; "power"]) as [c3|];
    destruct (find_column (columns data) ["network"; "usage"]);
    destruct (found (find_column (columns data) ["network"; "usage"; "bandwidth"]));
    cbn [found andb] in *;
    try destruct (PyStr.truthy c2); try destruct (PyStr.truthy c3);
    repeat match goal with
           | H : exists _ _ _, _ /\ _ /\ _ = _ |- _ =>
               destruct H as (? & ? & ? & _ & _ & ->)
           | H : saved _ = [] |- _ => rewrite H; clear H
           end;
    reflexivity.
Qed.

Lemma column_path_files_witness :
  map output_file (saved (trace (main sample_pyplot "/sim" sample_columns)))
  = map (fun m => path_join "/sim" (graph_file_name (fst (fst m))))
        (filter (column_charted sample_columns) column_metrics).
Proof.
  apply (column_path_files sample_pyplot "/sim" sample_columns); reflexivity.
Defined.

(** X10: for Delay and for Energy, where the classification and the renderer
    use the same keywords, the column the classification finds is the column
    that is charted whenever the main part goes through: its values are the
    bars, in the order of the records, with their texts, and the chart goes
    to the file of the metric. *)
Theorem same_keywords_column_charted (plt : Pyplot) (root : string) (data : DataFrame)
    (metric : string) (keywords : list string) (col : string) :
  In (metric, keywords) [("Delay", ["delay"]); ("Energy", ["energy"; "power"])] ->
  find_column (columns data) keywords = Some col ->
  ending (main plt root data) = Done tt ->
  exists chart,
    In chart (saved (trace (main plt root data))) /\
    column_values data col = Some (heights chart) /\
    bar_texts (heights chart) = Some (texts chart) /\
    output_file chart = path_join root (graph_file_name metric).
Proof.
  intros Hin Hf Hend.
  assert (Hfound : found (find_column (columns data) keywords) = true).
  { apply found_iff_some; [|congruence].
    destruct Hin as [[= <- <-] | [[= <- <-] | []]]; repeat constructor; discriminate. }
  assert (Hb : column_based data = true).
  { unfold column_based.
    destruct Hin as [[= <- <-] | [[= <- <-] | []]]; rewrite Hfound;
      now rewrite ?orb_true_r. }
  rewrite main_ending, (main_branch_column plt root data Hb) in Hend.
  rewrite main_saved, (main_branch_column plt root data Hb).
  rewrite ending_bind in Hend. cbn [ending snd print emit] in Hend.
  rewrite trace_bind, saved_app. cbn [ending snd print emit trace fst saved app].
  destruct (sequence_done _ Hend) as [Hall ->].
  cbn [column_calls map snd flat_map] in *.
  inversion Hall as [|? ? H1 Hall1]; subst. inversion Hall1 as [|? ? H2 Hall2]; subst.
  inversion Hall2 as [|? ? H3 _]; subst.
  destruct Hin as [[= <- <-] | [[= <- <-] | []]].
  - apply column_call_done in H2. rewrite Hfound, Hf in H2.
    destruct H2 as (values & bar_labels & labels & Hv & Ht & E).
    exists (bar_chart root "Delay" "Delay (ms)" "Delay Comparison" "green"
              values bar_labels labels).
    repeat split; auto. rewrite Hfound, E. apply in_or_app. right. now left.
  - apply column_call_done in H3. rewrite Hfound, Hf in H3.
    destruct H3 as (values & bar_labels & labels & Hv & Ht & E).
    exists (bar_chart root "Energy" "Energy Consumption (J)"
              "Energy Consumption Comparison" "purple" values bar_labels labels).
    repeat split; auto. rewrite Hfound, E. apply in_or_app. right. apply in_or_app. right. now left.
Qed.

Lemma same_keywords_column_charted_witness :
  exists chart,
    In chart (saved (trace (main sample_pyplot "/sim" sample_columns))) /\
    column_values sample_columns "Energy" = Some (heights chart) /\
    bar_texts (heights chart) = Some (texts chart) /\
    output_file chart = path_join "/sim" (graph_file_name "Energy").
Proof.
  apply (same_keywords_column_charted sample_pyplot "/sim" sample_columns
           "Energy" ["energy"; "power"] "Energy").
  - right. left. reflexivity.
  - reflexivity.
  - reflexivity.
Defined.

(** ** No file is written twice *)

Lemma script_saved (env : Env) :
  saved (trace (script env)) =
  match csv_file (path_exists env) (possible_locations (project_root env)) with
  | Some file =>
      match read_csv env file with
      | Loaded data => saved (trace (main (pyplot env) (project_root env) data))
      | LoadError _ => []
      end
  | None => []
  end.
Proof.
  unfold script.
  destruct (csv_file (path_exists env) (possible_locations (project_root env))) as [file|].
  - unfold load_and_plot. destruct (read_csv env file) as [data | e]; [|reflexivity].
    rewrite !trace_bind. cbn [ending snd print emit trace fst].
    rewrite !saved_app. reflexivity.
  - rewrite trace_bind, print_all_eq. cbn [ending snd trace fst exit].
    now rewrite saved_app, saved_prints.
Qed.

(** X9: a run writes at most four files and never the same file twice. *)
Theorem no_file_written_twice (env : Env) :
  NoDup (map output_file (saved (trace (script env)))) /\
  (List.length (saved (trace (script env))) <= 4)%nat.
Proof.
  rewrite script_saved.
  destruct (csv_file (path_exists env) (possible_locations (project_root env))) as [file|];
    [|split; [constructor | simpl; lia]].
  destruct (read_csv env file) as [data | e]; [|split; [constructor | simpl; lia]].
  rewrite <- (length_map output_file), main_saved.
  destruct (column_based data) eqn:Hb.
  - rewrite (main_branch_column _ _ data Hb).
    rewrite trace_bind, saved_app. cbn [ending snd print emit trace fst saved app].
    destruct (sequence_saved (map snd (column_calls (pyplot env) (project_root env) data)))
      as [n ->].
    destruct (calls_files (project_root env)
                (column_calls (pyplot env) (project_root env) data) n)
      as (names & -> & Hn & Hi).
    + repeat constructor; simpl; intuition discriminate.
    + apply column_call_files.
    + rewrite length_map. now apply metric_files_NoDup.
  - rewrite (main_branch_rows _ _ data Hb).
    destruct (columns data) as [|first_col rest] eqn:Hc.
    + unfold create_graphs_from_row_structure. rewrite Hc. split; [constructor | simpl; lia].
    + destruct (fallback_cases (pyplot env) (project_root env) data first_col rest Hc)
        as ([n Hn] & _).
      pose proof (scan_fold_keys (columns data) (rows data) [] (Forall_nil _)) as Hk.
      pose proof (scan_fold_NoDup (columns data) (rows data) [] (NoDup_nil _)) as Hnd.
      rewrite Hn, <- !firstn_map, map_map. cbn [output_file row_chart].
      rewrite <- (map_map fst (fun m => path_join (project_root env) (graph_file_name m))).
      rewrite firstn_map, length_map.
      apply metric_files_NoDup.
      * now apply NoDup_firstn.
      * intros m Hm. apply In_firstn in Hm.
        rewrite Forall_forall in Hk. now apply Hk.
Qed.

(** ** Row-structure fallback: what it returns and what it keeps *)

Lemma scan_fold_stays (cols : list string) (rs : list (list cell)) (d : dict (list float))
    (metric : string) (keywords : list string) (v : list float) :
  In (metric, keywords) metric_keywords ->
  dict_get metric d = Some v ->
  exists v', dict_get metric (fold_left (scan_step cols) rs d) = Some v'.
Proof.
  intros Hin. revert d v. induction rs as [|row rs IH]; intros d v Hd; [eauto|].
  cbn [fold_left].
  destruct (names_metric keywords row && has_values cols row) eqn:E.
  - apply (IH _ (row_values cols row)). now rewrite (scan_step_get _ _ _ _ _ Hin), E.
  - apply (IH _ v). now rewrite (scan_step_get _ _ _ _ _ Hin), E.
Qed.

Lemma scan_fold_populated (cols : list string) (rs : list (list cell)) (d : dict (list float))
    (metric : string) (keywords : list string) (row : list cell) :
  In (metric, keywords) metric_keywords ->
  In row rs -> names_metric keywords row = true -> has_values cols row = true ->
  exists v, dict_get metric (fold_left (scan_step cols) rs d) = Some v.
Proof.
  intros Hin Hrow Hn Hv. revert d. induction rs as [|r rs IH]; intros d; [contradiction|].
  cbn [fold_left]. destruct Hrow as [-> | Hrow]; [|now apply IH].
  apply (scan_fold_stays _ _ _ _ _ (row_values cols row) Hin).
  now rewrite (scan_step_get _ _ _ _ _ Hin), Hn, Hv.
Qed.

Lemma scan_fold_source (cols : list string) (rs : list (list cell)) (d : dict (list float))
    (metric : string) (keywords : list string) (v : list float) :
  In (metric, keywords) metric_keywords ->
  dict_get metric (fold_left (scan_step cols) rs d) = Some v ->
  dict_get metric d <> None \/
  exists row, In row rs /\ names_metric keywords row = true /\ has_values cols row = true.
Proof.
  intros Hin. revert d. induction rs as [|r rs IH]; intros d H.
  - left. cbn [fold_left] in H. congruence.
  - cbn [fold_left] in H. destruct (IH _ H) as [Hd | (row & Hrow & Hn & Hv)].
    + rewrite (scan_step_get _ _ _ _ _ Hin) in Hd.
      destruct (names_metric keywords r) eqn:En;
        [destruct (has_values cols r) eqn:Ev|]; cbn [andb] in Hd; auto.
      right. exists r. repeat split; auto. now left.
    + right. exists row. repeat split; auto. now right.
Qed.

(** X12: on a table with a first column the fallback returns [False]
    exactly when no record names a metric in its first cell and has a number
    after it.  When there is such a record the fallback draws: it returns
    [True] unless [plt.bar] or [plt.savefig] raises, and it returns [True]
    only then; with a plotting library that refuses nothing it returns
    [True] exactly then. *)
Theorem fallback_returns_true_iff (plt : Pyplot) (root : string) (data : DataFrame)
    (first_col : string) (rest : list string) :
  columns data = first_col :: rest ->
  (ending (create_graphs_from_row_structure plt root data) = Done false <->
   ~ populated data) /\
  (ending (create_graphs_from_row_structure plt root data) = Done true ->
   populated data) /\
  (populated data ->
   ending (create_graphs_from_row_structure plt root data) = Done true \/
   exists exn,
     ending (create_graphs_from_row_structure plt root data) = Raised exn /\
     ((exists values, plt_bar plt values = Some exn) \/
      (exists path, plt_savefig plt path = Some exn))) /\
  (refuses_nothing plt ->
   (ending (create_graphs_from_row_structure plt root data) = Done true <->
    populated data)).
Proof.
  intros Hc. rewrite (fallback_eq plt root data first_col rest Hc). cbv zeta.
  pose proof (scan_fold_keys (columns data) (rows data) [] (Forall_nil _)) as Hk.
  assert (Hsome : fold_left (scan_step (columns data)) (rows data) [] <> [] ->
                  populated data).
  { intros Hne.
    destruct (fold_left (scan_step (columns data)) (rows data) []) as [|[m v] items] eqn:E;
      [contradiction|].
    inversion Hk as [|? ? Hm _]; subst. cbn [fst] in Hm.
    apply in_map_iff in Hm. destruct Hm as ([m' keywords] & Hfst & Hin).
    cbn [fst] in Hfst. subst m'.
    destruct (scan_fold_source (columns data) (rows data) [] m keywords v Hin)
      as [Hd | (row & Hrow & Hn & Hv)].
    - rewrite E. cbn [dict_get]. now rewrite String.eqb_refl.
    - now contradiction Hd.
    - exists row, m, keywords. auto. }
  assert (Hnone : populated data ->
                  fold_left (scan_step (columns data)) (rows data) [] <> []).
  { intros (row & metric & keywords & Hrow & Hin & Hn & Hv) E.
    destruct (scan_fold_populated (columns data) (rows data) [] metric keywords row
                Hin Hrow Hn Hv) as [v Hget].
    rewrite E in Hget. discriminate. }
  destruct (fold_left (scan_step (columns data)) (rows data) []) as [|item items] eqn:E.
  - split; [split|split; [|split]].
    + intros _ Hp. exact (Hnone Hp eq_refl).
    + reflexivity.
    + discriminate.
    + intros Hp. destruct (Hnone Hp eq_refl).
    + intros _. split; [discriminate | intros Hp; destruct (Hnone Hp eq_refl)].
  - assert (Hp : populated data) by (apply Hsome; discriminate).
    rewrite ending_bind.
    destruct (draw_rows_ending plt root (item :: items))
      as [Hd | (exn & Hd & Hexn)]; rewrite Hd; cbn [ending ret snd].
    + split; [split|split; [|split]].
      * discriminate.
      * intros Hnp. destruct (Hnp Hp).
      * intros _. exact Hp.
      * intros _. now left.
      * intros _. split; auto.
    + split; [split|split; [|split]].
      * discriminate.
      * intros Hnp. destruct (Hnp Hp).
      * discriminate.
      * intros _. right. now exists exn.
      * intros [Hbar Hsave].
        destruct Hexn as [[values H] | [path H]];
          [rewrite Hbar in H | rewrite Hsave in H]; discriminate.
Qed.

Lemma fallback_returns_true_iff_witness :
  (ending (create_graphs_from_row_structure sample_pyplot "/sim" sample_gaps) = Done false <->
   ~ populated sample_gaps) /\
  (ending (create_graphs_from_row_structure sample_pyplot "/sim" sample_gaps) = Done true ->
   populated sample_gaps) /\
  (populated sample_gaps ->
   ending (create_graphs_from_row_structure sample_pyplot "/sim" sample_gaps) = Done true \/
   exists exn,
     ending (create_graphs_from_row_structure sample_pyplot "/sim" sample_gaps) = Raised exn /\
     ((exists values, plt_bar sample_pyplot values = Some exn) \/
      (exists path, plt_savefig sample_pyplot path = Some exn))) /\
  (refuses_nothing sample_pyplot ->
   (ending (create_graphs_from_row_structure sample_pyplot "/sim" sample_gaps) = Done true <->
    populated sample_gaps)).
Proof.
  apply (fallback_returns_true_iff sample_pyplot "/sim" sample_gaps "Metric"
           ["Config1"; "Config2"; "Config3"]).
  reflexivity.
Defined.

(** X13: a record with a number after its first cell gives its series to
    every metric one of whose keywords occurs in the first cell, be it more
    than one, and leaves the entries of the other metrics as they were.  The
    series holds the cells [float] accepts: a whole number beyond the range
    of a float is not among them. *)
Theorem record_populates_each_named_metric (cols : list string)
    (first_col : string) (rest : list string)
    (metric_rows : dict (list float)) (row : list cell) :
  cols = first_col :: rest ->
  has_values cols row = true ->
  exists metric_rows',
    scan_row cols first_col metric_rows row = Some metric_rows' /\
    forall metric keywords,
      In (metric, keywords) metric_keywords ->
      dict_get metric metric_rows' =
      if names_metric keywords row then Some (row_values cols row)
      else dict_get metric metric_rows.
Proof.
  intros -> Hv. exists (scan_step (first_col :: rest) metric_rows row).
  split; [apply scan_row_step|].
  intros metric keywords Hin.
  rewrite (scan_step_get _ _ _ _ _ Hin), Hv. now rewrite andb_true_r.
Qed.

Lemma record_populates_each_named_metric_witness :
  exists metric_rows',
    scan_row (columns sample_network_delay) "Metric" [] sample_overflow_row
    = Some metric_rows' /\
    forall metric keywords,
      In (metric, keywords) metric_keywords ->
      dict_get metric metric_rows' =
      if names_metric keywords sample_overflow_row
      then Some (row_values (columns sample_network_delay) sample_overflow_row)
      else dict_get metric [].
Proof.
  apply (record_populates_each_named_metric (columns sample_network_delay)
           "Metric" ["Run1"; "Run2"] [] sample_overflow_row).
  - reflexivity.
  - vm_compute. reflexivity.
Defined.

(** The record "Network Delay" with a whole number beyond the range of a
    float and a 5: both metrics get the series [5.0]; a record with the
    large number alone populates nothing. *)
Example sample_overflow_row_series :
  row_values (columns sample_network_delay) sample_overflow_row = [5%float] /\
  scan_row (columns sample_network_delay) "Metric" [] sample_overflow_row
  = Some [("Delay", [5%float]); ("Network Usage", [5%float])] /\
  scan_row ["Metric"; "Run1"] "Metric" [] [CStr "Network Delay"; CInt (10 ^ 400)]
  = Some [].
Proof. vm_compute. repeat split. Qed.

(** The record "Network Delay" is charted as Delay and as Network Usage. *)
Example sample_network_delay_charts :
  map output_file (saved (trace (main sample_pyplot "/sim" sample_network_delay)))
    = ["/sim/delay_graph.png"; "/sim/network_usage_graph.png"] /\
  map texts (saved (trace (main sample_pyplot "/sim" sample_network_delay)))
    = [["7.00"; "9.00"]; ["7.00"; "9.00"]].
Proof. vm_compute. repeat split. Qed.

(** *** A first cell that is a number *)

Lemma string_of_uint_plain (d : Decimal.uint) :
  all_plain (NilEmpty.string_of_uint d) = true.
Proof. induction d; simpl; auto. Qed.

Lemma of_Z_plain (z : Z) : all_plain (PyStr.of_Z z) = true.
Proof.
  unfold PyStr.of_Z. destruct (Z.to_int z) as [d | d]; simpl;
    apply string_of_uint_plain.
Qed.

Lemma lower_ascii_plain (c : ascii) : plain c = true -> PyStr.lower_ascii c = c.
Proof.
  destruct c as [[] [] [] [] [] [] [] []]; try reflexivity; discriminate.
Qed.

Lemma lower_plain (s : string) : all_plain s = true -> PyStr.lower s = s.
Proof.
  induction s as [|c s IH]; [reflexivity|].
  cbn [all_plain PyStr.lower]. intros H. apply andb_true_iff in H. destruct H as [Hc Hs].
  now rewrite (lower_ascii_plain c Hc), IH.
Qed.

(** A keyword that starts with a letter does not occur in such a text. *)
Lemma contains_plain (a : ascii) (k s : string) :
  plain a = false -> all_plain s = true -> PyStr.contains (String a k) s = false.
Proof.
  intros Ha. induction s as [|b s IH]; [reflexivity|].
  cbn [all_plain PyStr.contains PyStr.startswith]. intros H.
  apply andb_true_iff in H. destruct H as [Hb Hs].
  rewrite (IH Hs), orb_false_r.
  destruct (Ascii.eqb a b) eqn:E; [|reflexivity].
  apply Ascii.eqb_eq in E. congruence.
Qed.

(** X14: a record whose first cell is a whole number or a truth value names
    no metric, whatever the number: the fallback passes over it. *)
Theorem numbered_record_names_no_metric (metric : string) (keywords : list string)
    (cells : list cell) :
  In (metric, keywords) metric_keywords ->
  (forall z, names_metric keywords (CInt z :: cells) = false) /\
  (forall b, names_metric keywords (CBool b :: cells) = false) /\
  (forall cols metric_rows z, scan_step cols metric_rows (CInt z :: cells) = metric_rows).
Proof.
  intros Hin.
  assert (Hz : forall kws m z, In (m, kws) metric_keywords ->
                 names_metric kws (CInt z :: cells) = false).
  { intros kws m z H. unfold names_metric, metric_text, cell_at. cbn [nth py_str].
    rewrite (lower_plain _ (of_Z_plain z)).
    cbn [metric_keywords In] in H.
    destruct H as [[= <- <-] | [[= <- <-] | [[= <- <-] | [[= <- <-] | []]]]];
      cbn [row_matches existsb];
      rewrite ?contains_plain by (reflexivity || apply of_Z_plain); reflexivity. }
  repeat apply conj.
  - intros z. now apply (Hz keywords metric).
  - intros b. cbn [metric_keywords In] in Hin.
    destruct Hin as [[= <- <-] | [[= <- <-] | [[= <- <-] | [[= <- <-] | []]]]];
      destruct b; reflexivity.
  - intros cols metric_rows z. unfold scan_step.
    cbn [metric_keywords fold_left match_metric].
    fold (names_metric ["execution"; "time"; "exec"] (CInt z :: cells)).
    fold (names_metric ["delay"] (CInt z :: cells)).
    fold (names_metric ["energy"; "power"] (CInt z :: cells)).
    fold (names_metric ["network"; "usage"; "bandwidth"] (CInt z :: cells)).
    rewrite (Hz ["execution"; "time"; "exec"] "Execution Time" z) by (left; reflexivity).
    rewrite (Hz ["delay"] "Delay" z) by (right; left; reflexivity).
    rewrite (Hz ["energy"; "power"] "Energy" z) by (right; right; left; reflexivity).
    rewrite (Hz ["network"; "usage"; "bandwidth"] "Network Usage" z)
      by (right; right; right; left; reflexivity).
    reflexivity.
Qed.

Lemma numbered_record_names_no_metric_witness :
  (forall z, names_metric ["delay"] (CInt z :: [CInt 10]) = false) /\
  (forall b, names_metric ["delay"] (CBool b :: [CInt 10]) = false) /\
  (forall cols metric_rows z, scan_step cols metric_rows (CInt z :: [CInt 10]) = metric_rows).
Proof.
  apply (numbered_record_names_no_metric "Delay" ["delay"] [CInt 10]).
  right. left. reflexivity.
Defined.

(** *** The charts of the fallback *)

Lemma scan_fold_nonempty (cols : list string) (rs : list (list cell)) (d : dict (list float)) :
  Forall (fun item => snd item <> []) d ->
  Forall (fun item => snd item <> []) (fold_left (scan_step cols) rs d).
Proof.
  assert (Hset : forall (k : string) (v : list float) (d0 : dict (list float)),
             v <> [] -> Forall (fun item => snd item <> []) d0 ->
             Forall (fun item => snd item <> []) (dict_set k v d0)).
  { intros k v d0 Hv. induction d0 as [|[k' v'] d0 IH]; intros H.
    - repeat constructor. exact Hv.
    - inversion H; subst. cbn [dict_set].
      destruct (String.eqb k' k); constructor; auto. }
  revert d. induction rs as [|row rs IH]; intros d H; [exact H|].
  cbn [fold_left]. apply IH. unfold scan_step.
  generalize (metric_text row). intros text.
  revert d H. induction metric_keywords as [|[m kws] items IHi]; intros d H; [exact H|].
  cbn [fold_left]. apply IHi. unfold match_metric.
  destruct (row_matches kws text); [|exact H].
  destruct (row_values cols row) eqn:E; [exact H|].
  apply Hset; [discriminate | exact H].
Qed.

(** X15: every chart of the fallback has at least one bar; its bars are
    floats, each with its value to two decimals above it, and its labels are
    "Config 1", "Config 2", ... by position. *)
Theorem fallback_charts_have_bars (plt : Pyplot) (root : string) (data : DataFrame) :
  Forall (fun c => exists values,
            values <> [] /\
            heights c = map CFloat values /\
            texts c = map PyFloat.format_2f values /\
            ticks c = config_labels (List.length values))
         (saved (trace (create_graphs_from_row_structure plt root data))).
Proof.
  apply fallback_saved_Forall. intros first_col rest _.
  pose proof (scan_fold_nonempty (columns data) (rows data) [] (Forall_nil _)) as Hn.
  eapply Forall_impl; [|exact Hn].
  intros [metric values] Hv. exists values. cbn [snd] in Hv. auto.
Qed.

(** The column-based path, for its part, charts a table without records: the
    chart has no bar. *)
Example sample_no_rows_chart :
  map output_file (saved (trace (main sample_pyplot "/sim" sample_no_rows)))
    = ["/sim/delay_graph.png"] /\
  map heights (saved (trace (main sample_pyplot "/sim" sample_no_rows))) = [[]].
Proof. vm_compute. repeat split. Qed.

(** ** Every chart is announced *)

Lemma announced_app (t1 t2 : list Event) :
  announced t1 -> announced t2 -> announced (t1 ++ t2).
Proof.
  unfold announced. intros H1 H2. rewrite saved_app, printed_app.
  apply Forall_app. split; (eapply Forall_impl; [|eassumption]); intros c Hc;
    apply in_or_app; auto.
Qed.

Lemma announced_bind {A B} (m : Run A) (k : A -> Run B) :
  announced (trace m) -> (forall a, announced (trace (k a))) ->
  announced (trace (bind m k)).
Proof.
  intros Hm Hk. rewrite trace_bind. apply announced_app; [exact Hm|].
  destruct (ending m); [apply Hk | constructor | constructor].
Qed.

Lemma announced_prints (lines : list string) : announced (map Print lines).
Proof. unfold announced. rewrite saved_prints. constructor. Qed.

Lemma announced_bar_graph (plt : Pyplot) (root : string) (data : DataFrame)
    (metric_name : string) (keywords : list string) (yl t col : string) :
  announced (trace (create_bar_graph plt root data metric_name keywords yl t col)).
Proof.
  destruct (find_column (columns data) keywords) as [metric_col|] eqn:Hf.
  - destruct (create_bar_graph_found plt root data metric_name keywords yl t col
                metric_col Hf) as (values & labels & _ & -> & _).
    destruct (plt_bar plt values); [constructor|].
    destruct (bar_texts values); [|constructor].
    destruct (plt_savefig plt _); repeat constructor.
  - rewrite (create_bar_graph_not_found _ _ _ _ _ _ _ _ Hf). constructor.
Qed.

Lemma announced_draw_rows (plt : Pyplot) (root : string) (items : dict (list float)) :
  announced (trace (draw_rows plt root items)).
Proof.
  induction items as [|[metric values] items IH]; [constructor|].
  rewrite draw_rows_cons.
  destruct (plt_bar plt _); [constructor|].
  destruct (plt_savefig plt _); [constructor|].
  cbn [trace fst]. apply announced_app; [|exact IH].
  repeat constructor.
Qed.

Lemma announced_fallback (plt : Pyplot) (root : string) (data : DataFrame) :
  announced (trace (create_graphs_from_row_structure plt root data)).
Proof.
  destruct (columns data) as [|first_col rest] eqn:Hc.
  - unfold create_graphs_from_row_structure. rewrite Hc. constructor.
  - rewrite (fallback_eq plt root data first_col rest Hc). cbv zeta.
    destruct (fold_left _ _ _) as [|item items]; [constructor|].
    apply announced_bind; [apply announced_draw_rows | intros _; constructor].
Qed.

Lemma announced_when (b : bool) (m : Run unit) :
  announced (trace m) -> announced (trace (when b m)).
Proof. destruct b; [auto | constructor]. Qed.

Ltac announced_steps :=
  repeat first
    [ apply announced_bind; [|intros ?]
    | apply announced_when
    | apply Forall_nil
    | apply announced_bar_graph
    | apply announced_fallback ].

(** X16: every chart a run saves is announced: the run prints a line
    "Saved: " followed by the path the chart was written to. *)
Theorem every_chart_is_announced (env : Env) :
  Forall (fun c => In ("Saved: " ++ output_file c)%string (printed (trace (script env))))
         (saved (trace (script env))).
Proof.
  change (announced (trace (script env))). unfold script.
  destruct (csv_file (path_exists env) (possible_locations (project_root env))) as [file|].
  - unfold load_and_plot. apply announced_bind; [constructor | intros _].
    destruct (read_csv env file) as [data | e]; [|announced_steps].
    unfold main. cbv zeta. announced_steps.
    match goal with |- context [if ?b then _ else _] => destruct b end; announced_steps.
  - apply announced_bind; [|intros _; constructor].
    rewrite print_all_eq. apply announced_prints.
Qed.

(** ** Exit status *)

Lemma script_ending (env : Env) (file : string) (data : DataFrame) :
  csv_file (path_exists env) (possible_locations (project_root env)) = Some file ->
  read_csv env file = Loaded data ->
  ending (script env) = ending (main (pyplot env) (project_root env) data).
Proof.
  intros Hfile Hread. unfold script. rewrite Hfile. unfold load_and_plot. rewrite Hread.
  rewrite !ending_bind. reflexivity.
Qed.

Lemma script_printed (env : Env) (file : string) (data : DataFrame) :
  csv_file (path_exists env) (possible_locations (project_root env)) = Some file ->
  read_csv env file = Loaded data ->
  printed (trace (script env))
  = [ ("Reading data from: " ++ file)%string;
      "CSV file loaded successfully!";
      (PyStr.nl ++ "First few rows:")%string ]
    ++ printed (trace (main (pyplot env) (project_root env) data)).
Proof.
  intros Hfile Hread. unfold script. rewrite Hfile. unfold load_and_plot. rewrite Hread.
  rewrite !trace_bind. cbn [ending snd print emit trace fst app printed].
  reflexivity.
Qed.

(** The main part never calls [exit]; on a table without a column it stops
    with an exception. *)
Lemma main_no_exit (plt : Pyplot) (root : string) (data : DataFrame) (code : Z) :
  ending (main plt root data) <> Exit code.
Proof.
  destruct (columns data) as [|first_col rest] eqn:Hc.
  - unfold main, create_graphs_from_row_structure. rewrite Hc. discriminate.
  - pose proof (main_ends_well plt root data first_col rest Hc) as Hw.
    unfold ends_well in Hw. intros E. now rewrite E in Hw.
Qed.

Lemma main_done_columns (plt : Pyplot) (root : string) (data : DataFrame) :
  ending (main plt root data) = Done tt -> columns data <> [].
Proof.
  intros H Hc. unfold main, create_graphs_from_row_structure in H.
  rewrite Hc in H. discriminate.
Qed.

Lemma main_done_printed (plt : Pyplot) (root : string) (data : DataFrame) :
  ending (main plt root data) = Done tt ->
  exists before,
    printed (trace (main plt root data))
    = before ++ [ (PyStr.nl ++ PyStr.times "=" 50)%string;
                  "Visualization Complete!";
                  PyStr.times "=" 50 ].
Proof.
  rewrite main_shape. cbn [ending snd trace fst].
  destruct (ending (main_branch plt root data)) as [[] | code | exn]; try discriminate.
  intros _.
  exists ([ (PyStr.nl ++ PyStr.times "=" 50)%string;
            "Creating Visualization Graphs";
            (PyStr.times "=" 50 ++ PyStr.nl)%string ]
          ++ printed (trace (main_branch plt root data))).
  cbn [app printed]. rewrite printed_app. reflexivity.
Qed.

(** *** Tables and libraries with which no drawing step raises *)

Lemma ordinary_bar_text (c : cell) :
  ordinary c = true -> exists text, bar_text c = Some text.
Proof.
  destruct c as [z | x | b | s]; unfold bar_text; cbn [ordinary isinstance_int_float py_float].
  - intros ->. cbn [negb]. eauto.
  - eauto.
  - eauto.
  - eauto.
Qed.

Lemma ordinary_bar_texts (values : list cell) :
  Forall (fun c => ordinary c = true) values ->
  exists bar_labels, bar_texts values = Some bar_labels.
Proof.
  induction 1 as [|c values Hc _ [bar_labels IH]]; [now exists []|].
  destruct (ordinary_bar_text c Hc) as [text Ht].
  exists (text :: bar_labels). cbn [bar_texts]. now rewrite Ht, IH.
Qed.

Lemma ordinary_column (data : DataFrame) (col : string) (values : list cell) :
  all_ordinary data -> column_values data col = Some values ->
  Forall (fun c => ordinary c = true) values.
Proof.
  unfold all_ordinary, column_values. intros Ho.
  destruct (index_of col (columns data)) as [i|]; [|discriminate].
  intros [= <-]. apply Forall_map. eapply Forall_impl; [|exact Ho].
  intros row Hrow. unfold cell_at.
  destruct (nth_in_or_default i row (CFloat PyFloat.nan)) as [Hin | ->]; [|reflexivity].
  rewrite forallb_forall in Hrow. now apply Hrow.
Qed.

Lemma create_bar_graph_goes_through (plt : Pyplot) (root : string) (data : DataFrame)
    (metric_name : string) (keywords : list string) (yl t col : string) :
  refuses_nothing plt -> all_ordinary data ->
  ending (create_bar_graph plt root data metric_name keywords yl t col) = Done tt.
Proof.
  intros [Hbar Hsave] Ho.
  destruct (find_column (columns data) keywords) as [metric_col|] eqn:Hf.
  - destruct (create_bar_graph_found plt root data metric_name keywords yl t col
                metric_col Hf) as (values & labels & Hv & -> & _).
    rewrite Hbar.
    destruct (ordinary_bar_texts values (ordinary_column data metric_col values Ho Hv))
      as [bar_labels ->].
    now rewrite Hsave.
  - now rewrite (create_bar_graph_not_found _ _ _ _ _ _ _ _ Hf).
Qed.

Lemma sequence_returns (ms : list (Run unit)) :
  Forall (fun m => ending m = Done tt) ms -> ending (sequence ms) = Done tt.
Proof.
  induction 1 as [|m ms Hm Hall IH]; [reflexivity|].
  destruct ms as [|m' ms]; [exact Hm|].
  change (sequence (m :: m' :: ms)) with (bind m (fun _ => sequence (m' :: ms))).
  rewrite ending_bind, Hm. exact IH.
Qed.

Lemma main_returns (plt : Pyplot) (root : string) (data : DataFrame) :
  columns data <> [] -> refuses_nothing plt -> all_ordinary data ->
  ending (main plt root data) = Done tt.
Proof.
  intros Hc Hplt Ho. rewrite main_ending.
  destruct (column_based data) eqn:Hb.
  - rewrite (main_branch_column plt root data Hb), ending_bind.
    cbn [ending snd print emit]. apply sequence_returns.
    unfold column_calls. cbn [map snd].
    repeat (apply Forall_cons;
            [match goal with |- ending (when ?b _) = _ => destruct b end;
             [now apply create_bar_graph_goes_through | reflexivity]|]).
    apply Forall_nil.
  - unfold main_branch. rewrite Hb. rewrite !ending_bind. cbn [ending snd print emit].
    destruct (columns data) as [|first_col rest] eqn:E; [contradiction|].
    rewrite (fallback_eq plt root data first_col rest E). cbv zeta.
    destruct (fold_left _ _ _) as [|item items].
    + cbn [ending snd negb when]. now rewrite print_all_eq.
    + rewrite ending_bind.
      destruct (draw_rows_ending plt root (item :: items))
        as [-> | (exn & _ & [[values H] | [path H]])].
      * reflexivity.
      * destruct Hplt as [Hbar _]. rewrite Hbar in H. discriminate.
      * destruct Hplt as [_ Hsave]. rewrite Hsave in H. discriminate.
Qed.

(** X17: the process ends with status 0 or 1.  It ends with status 0
    exactly when the file is found, is loaded and the main part returns;
    the table then has at least one column and the last lines printed are
    the banner with "Visualization Complete!".  An exception of a drawing
    step gives status 1.  The main part does return, whatever the path it
    takes, when the table has a column and no whole number beyond 64 bits
    and the plotting library refuses nothing. *)
Theorem exit_status_of_run (env : Env) :
  (exit_status (ending (script env)) = 0%Z \/ exit_status (ending (script env)) = 1%Z) /\
  (exit_status (ending (script env)) = 0%Z <->
   exists file data,
     csv_file (path_exists env) (possible_locations (project_root env)) = Some file /\
     read_csv env file = Loaded data /\
     ending (main (pyplot env) (project_root env) data) = Done tt) /\
  (exit_status (ending (script env)) = 0%Z ->
   exists file data before,
     read_csv env file = Loaded data /\ columns data <> [] /\
     printed (trace (script env))
     = before ++ [ "
==================================================";
                   "Visualization Complete!";
                   "==================================================" ]) /\
  (forall file data,
     csv_file (path_exists env) (possible_locations (project_root env)) = Some file ->
     read_csv env file = Loaded data ->
     columns data <> [] -> refuses_nothing (pyplot env) -> all_ordinary data ->
     exit_status (ending (script env)) = 0%Z).
Proof.
  destruct (csv_file (path_exists env) (possible_locations (project_root env)))
    as [file|] eqn:Hfile.
  - destruct (read_csv env file) as [data | e] eqn:Hread.
    + rewrite (script_ending env file data Hfile Hread),
              (script_printed env file data Hfile Hread).
      pose proof (main_no_exit (pyplot env) (project_root env) data) as Hexit.
      pose proof (main_done_columns (pyplot env) (project_root env) data) as Hcols.
      pose proof (main_done_printed (pyplot env) (project_root env) data) as Hbanner.
      destruct (ending (main (pyplot env) (project_root env) data)) as [[] | code | exn] eqn:E.
      * repeat apply conj.
        -- now left.
        -- intros _. exists file, data. auto.
        -- reflexivity.
        -- intros _. destruct (Hbanner eq_refl) as [before Hp].
           exists file, data.
           exists ([ ("Reading data from: " ++ file)%string;
                     "CSV file loaded successfully!";
                     (PyStr.nl ++ "First few rows:")%string ] ++ before).
           repeat apply conj; [exact Hread | now apply Hcols |].
           rewrite Hp, app_assoc. reflexivity.
        -- reflexivity.
      * now contradiction (Hexit code).
      * repeat apply conj.
        -- now right.
        -- discriminate.
        -- intros (file' & data' & [= <-] & Hread' & Hdone).
           rewrite Hread in Hread'. injection Hread' as <-. rewrite E in Hdone. discriminate.
        -- discriminate.
        -- intros file' data' [= <-] Hread' Hc Hplt Ho.
           rewrite Hread in Hread'. injection Hread' as <-.
           rewrite (main_returns _ _ _ Hc Hplt Ho) in E. discriminate.
    + assert (Es : ending (script env) = Exit 1).
      { unfold script. rewrite Hfile. unfold load_and_plot. now rewrite Hread. }
      rewrite Es. repeat apply conj.
      * now right.
      * discriminate.
      * intros (file' & data' & [= <-] & Hread' & _). congruence.
      * discriminate.
      * intros file' data' [= <-] Hread'. congruence.
  - assert (Es : ending (script env) = Exit 1).
    { unfold script. rewrite Hfile, ending_bind, print_all_eq. reflexivity. }
    rewrite Es. repeat apply conj.
    + now right.
    + discriminate.
    + intros (file' & data' & Hf & _). discriminate.
    + discriminate.
    + intros file' data' Hf. discriminate.
Qed.

(** The column-based sample of the format guidance goes through with
    status 0; a text column with a missing value under a metric's name stops
    the run with status 1 and no chart. *)
Example exit_status_samples :
  exit_status (ending (script (sample_env ["/sim/results.csv"] sample_columns))) = 0%Z /\
  ending (script (sample_env ["/sim/results.csv"] sample_text_gap)) = Raised "TypeError" /\
  exit_status (ending (script (sample_env ["/sim/results.csv"] sample_text_gap))) = 1%Z /\
  saved (trace (script (sample_env ["/sim/results.csv"] sample_text_gap))) = [].
Proof. vm_compute. repeat split. Qed.

(** ** A table of one column *)

(** X18: the series of a record has at most one value for each column after
    the first; so on a table of a single column no record has a series, and
    the fallback draws nothing and returns [False] whatever the records
    are. *)
Theorem single_column_fallback (plt : Pyplot) (root : string) (data : DataFrame) :
  (forall row, (List.length (row_values (columns data) row)
                <= List.length (columns data) - 1)%nat) /\
  (forall only, columns data = [only] ->
     create_graphs_from_row_structure plt root data = ([], Done false)).
Proof.
  split.
  - intros row. unfold row_values.
    destruct (columns data) as [|c cols]; [simpl; lia|].
    cbn [tl List.length]. rewrite Nat.sub_succ, Nat.sub_0_r.
    generalize (c :: cols). intros all.
    induction cols as [|x cols IH]; [simpl; lia|].
    cbn [flat_map List.length]. rewrite length_app.
    destruct (row_get all row x) as [v|]; [destruct (py_float v)|]; simpl; lia.
  - intros only Hc. rewrite (fallback_eq plt root data only [] Hc). cbv zeta.
    assert (E : fold_left (scan_step (columns data)) (rows data) [] = []).
    { generalize (rows data). intros rs. induction rs as [|row rs IH]; [reflexivity|].
      cbn [fold_left]. rewrite scan_step_empty; [exact IH|].
      unfold has_values, row_values. now rewrite Hc. }
    now rewrite E.
Qed.

(** A single column that matches no keyword: the records name metrics, and
    yet there is nothing to chart. *)
Example sample_one_column_run :
  saved (trace (main sample_pyplot "/sim" sample_one_column)) = [] /\
  ending (create_graphs_from_row_structure sample_pyplot "/sim" sample_one_column)
  = Done false.
Proof. vm_compute. repeat split. Qed.

(** ** File names *)

Lemma lower_ascii_tidy (c : ascii) :
  tidy (PyStr.lower_ascii (if Ascii.eqb c " " then "_"%char else c)) = true.
Proof. destruct c as [[] [] [] [] [] [] [] []]; reflexivity. Qed.

Lemma all_tidy_app (s1 s2 : string) :
  all_tidy (s1 ++ s2) = all_tidy s1 && all_tidy s2.
Proof.
  induction s1 as [|c s1 IH]; [reflexivity|].
  cbn [String.append all_tidy]. now rewrite IH, andb_assoc.
Qed.

Lemma append_length (s1 s2 : string) :
  String.length (s1 ++ s2) = (String.length s1 + String.length s2)%nat.
Proof. induction s1 as [|c s1 IH]; simpl; [reflexivity | now rewrite IH]. Qed.

(** X19: whatever the display name of a metric, the name of its chart file
    has no space and no upper-case letter, is ten characters longer than the
    display name and ends in [_graph.png]. *)
Theorem graph_file_name_tidy (metric_name : string) :
  all_tidy (graph_file_name metric_name) = true /\
  String.length (graph_file_name metric_name) = (String.length metric_name + 10)%nat /\
  exists stem, graph_file_name metric_name = (stem ++ "_graph.png")%string /\
               String.length stem = String.length metric_name.
Proof.
  unfold graph_file_name.
  assert (Ht : all_tidy (PyStr.lower (PyStr.replace_char " " "_" metric_name)) = true).
  { induction metric_name as [|c s IH]; [reflexivity|].
    cbn [PyStr.replace_char PyStr.lower all_tidy]. now rewrite lower_ascii_tidy, IH. }
  assert (Hl : forall s, String.length (PyStr.lower (PyStr.replace_char " " "_" s))
                         = String.length s).
  { intros s. induction s as [|c s IH]; [reflexivity|].
    cbn [PyStr.replace_char PyStr.lower String.length]. now rewrite IH. }
  repeat apply conj.
  - now rewrite all_tidy_app, Ht.
  - now rewrite append_length, Hl.
  - now exists (PyStr.lower (PyStr.replace_char " " "_" metric_name)).
Qed.
